(** * Discrete_Filter/Filter.c : the recursive filter engine

    A shallow embedding of [Filter_Init], [Filter_ShiftBy], [Filter_SetTo],
    [Filter_Value] and [Filter_Last_Output], and the properties the
    specification states about them.

    The C code works on [float] and on four ring buffers reached through
    pointers into a [Filter_Data_t].  Here

    - the sample type and its arithmetic are section variables: nothing is
      assumed about [fadd], [fmul], [fsub], [fdiv], so every theorem of the
      main section holds for IEEE binary32, instantiated at the end with
      [SpecFloat];
    - Ring_Buffer.h and Filter.h are not among the sources: the ring buffer
      is the contract of the specification (a sequence, oldest first, with a
      capacity; pushes fail when full, pops when empty), its failures end
      the computation in a [Fault];
    - a C function taking [Filter_Data_t*] is a computation in a state and
      error monad over [Filter_Data_t]; [&p_filt->in_list] is a field
      selector ([on in_list_ ...]);
    - loops are run with fuel, a [uint8_t] counter wraps modulo 256. *)

From Stdlib Require Import List ZArith Lia Bool Arith.
From Stdlib Require Import Floats.SpecFloat.
From Stdlib Require Strings.String.
Import ListNotations.

Set Implicit Arguments.

(** ** Outcomes and the state-and-error monad *)

Inductive fault : Type :=
| CapacityError     (* push into a full ring buffer *)
| UnderflowError    (* pop from an empty ring buffer *)
| IndexError        (* get outside the stored elements *)
| ReadOutOfBounds.  (* read past the end of a coefficient array *)

Inductive outcome (A : Type) : Type :=
| Done (a : A)
| Fault (e : fault)
| Timeout.

Arguments Done {A} a.
Arguments Fault {A} e.
Arguments Timeout {A}.

Definition M (S A : Type) : Type := S -> outcome (A * S).

Definition ret {S A : Type} (a : A) : M S A := fun s => Done (a, s).

Definition bind {S A B : Type} (m : M S A) (k : A -> M S B) : M S B :=
  fun s =>
    match m s with
    | Done (a, s') => k a s'
    | Fault e => Fault e
    | Timeout => Timeout
    end.

Declare Scope filter_scope.
Delimit Scope filter_scope with filter.
Notation "x <- m ;; k" := (bind m (fun x => k))
  (at level 61, m at next level, right associativity) : filter_scope.
Notation "' pat <- m ;; k" := (bind m (fun x => match x with pat => k end))
  (at level 61, pat pattern, m at next level, right associativity) : filter_scope.
Notation "m ;; k" := (bind m (fun _ => k))
  (at level 61, right associativity) : filter_scope.
Open Scope filter_scope.

(** A struct member reached through a pointer. *)
Record member (S T : Type) : Type := Member {
  fget : S -> T;
  fset : T -> S -> S
}.

Definition on {S T A : Type} (f : member S T) (m : M T A) : M S A :=
  fun s =>
    match m (fget f s) with
    | Done (a, t) => Done (a, fset f t s)
    | Fault e => Fault e
    | Timeout => Timeout
    end.

(** [while (cond) body], the loop-carried locals in [l]. *)
Fixpoint while_loop {S L : Type} (fuel : nat)
    (cond : L -> M S bool) (body : L -> M S L) (l : L) : M S L :=
  match fuel with
  | O => fun _ => Timeout
  | S fuel' =>
      b <- cond l ;;
      if b then (l' <- body l ;; while_loop fuel' cond body l') else ret l
  end.

(** Conversion to [uint8_t]. *)
Definition u8 (z : Z) : Z := z mod 256.

(** ** IEEE binary32, the C [float] of the sources *)

Module Binary32.
Definition prec : Z := 24.
Definition emax : Z := 128.
Definition float : Type := spec_float.
Definition zero : float := S754_zero false.
Definition add : float -> float -> float := SFadd prec emax.
Definition sub : float -> float -> float := SFsub prec emax.
Definition mul : float -> float -> float := SFmul prec emax.
Definition div : float -> float -> float := SFdiv prec emax.
(** The float nearest to an integer constant. *)
Definition of_Z (z : Z) : float := binary_normalize prec emax z 0 false.
End Binary32.

(** ** The texts print_rb writes *)

Module Console.
Import Stdlib.Strings.String.
Definition newline : string := String (Ascii.ascii_of_nat 10) EmptyString.
Definition two_newlines : string := append newline newline.
Definition comma_space : string := ", "%string.
End Console.

Section Filter.

Variable F : Type.
Variable fzero : F.
Variables fadd fsub fmul fdiv : F -> F -> F.

(** Modelled from the spec: the element count a ring buffer can hold
    (Ring_Buffer.h is not part of the sources; "fixed maximum capacity C
    fixed at creation"). *)
Variable capacity : nat.

(** ** Ring buffer *)

(** Modelled from the spec: [Ring_Buffer_Float_t] of Ring_Buffer.h, the
    "ordered sequence of numeric values", oldest element first. *)
Definition Ring_Buffer_Float_t : Type := list F.

(** Modelled from the spec: [rb_initialize_F] "sets length to 0. No failure
    condition." *)
Definition rb_initialize_F : M Ring_Buffer_Float_t unit :=
  fun _ => Done (tt, []).

(** Modelled from the spec: [rb_length_F] is the "current element count". *)
Definition rb_length_F : M Ring_Buffer_Float_t Z :=
  fun b => Done (Z.of_nat (length b), b).

(** Modelled from the spec: [rb_push_back_F] inserts at the tail and "fails
    (capacity error) if length == capacity". *)
Definition rb_push_back_F (v : F) : M Ring_Buffer_Float_t unit :=
  fun b => if Nat.eqb (length b) capacity then Fault CapacityError
           else Done (tt, b ++ [v]).

(** Modelled from the spec: [rb_push_front_F] inserts at the head, same
    failure condition. *)
Definition rb_push_front_F (v : F) : M Ring_Buffer_Float_t unit :=
  fun b => if Nat.eqb (length b) capacity then Fault CapacityError
           else Done (tt, v :: b).

(** Modelled from the spec: [rb_pop_front_F] removes and returns the head
    element and "fails (underflow error) if length == 0". *)
Definition rb_pop_front_F : M Ring_Buffer_Float_t F :=
  fun b => match b with
           | [] => Fault UnderflowError
           | x :: b' => Done (x, b')
           end.

(** Modelled from the spec: [rb_pop_back_F] removes and returns the tail
    element, same failure condition. *)
Definition rb_pop_back_F : M Ring_Buffer_Float_t F :=
  fun b => match rev b with
           | [] => Fault UnderflowError
           | x :: r => Done (x, rev r)
           end.

(** Modelled from the spec: [rb_get_F] reads the element at logical position
    [index] (0 = oldest) without removing it and "fails if index >= length". *)
Definition rb_get_F (index : Z) : M Ring_Buffer_Float_t F :=
  fun b => if (index <? 0)%Z then Fault IndexError
           else match nth_error b (Z.to_nat index) with
                | Some x => Done (x, b)
                | None => Fault IndexError
                end.

(** ** Filter state *)

(** Filter.h is not part of the sources; the four members are the ones
    Filter.c accesses. *)
Record Filter_Data_t : Type := mkFilter {
  numerator : Ring_Buffer_Float_t;
  denominator : Ring_Buffer_Float_t;
  out_list : Ring_Buffer_Float_t;
  in_list : Ring_Buffer_Float_t
}.

Definition numerator_ : member Filter_Data_t Ring_Buffer_Float_t :=
  Member numerator
    (fun b p => mkFilter b (denominator p) (out_list p) (in_list p)).
Definition denominator_ : member Filter_Data_t Ring_Buffer_Float_t :=
  Member denominator
    (fun b p => mkFilter (numerator p) b (out_list p) (in_list p)).
Definition out_list_ : member Filter_Data_t Ring_Buffer_Float_t :=
  Member out_list
    (fun b p => mkFilter (numerator p) (denominator p) b (in_list p)).
Definition in_list_ : member Filter_Data_t Ring_Buffer_Float_t :=
  Member in_list
    (fun b p => mkFilter (numerator p) (denominator p) (out_list p) b).

(** [coeffs[i]] on a [float*] argument; reading past the array is undefined
    in C and a fault here. *)
Definition array_read {S : Type} (a : list F) (i : Z) : M S F :=
  fun s => match nth_error a (Z.to_nat i) with
           | Some x => Done (x, s)
           | None => Fault ReadOutOfBounds
           end.

(** ** Filter_Init (Filter.c, lines 51-70) *)

(** One pass of the loop at lines 60-67, returning the incremented counter. *)
Definition Filter_Init_step (numerator_coeffs denominator_coeffs : list F)
    (i : Z) : M Filter_Data_t Z :=
  nc <- array_read numerator_coeffs i ;;
  on numerator_ (rb_push_back_F nc) ;;
  dc <- array_read denominator_coeffs i ;;
  on denominator_ (rb_push_back_F dc) ;;
  on in_list_ (rb_push_back_F fzero) ;;
  on out_list_ (rb_push_back_F fzero) ;;
  ret (u8 (i + 1)).

Definition Filter_Init (fuel : nat)
    (numerator_coeffs denominator_coeffs : list F) (order : Z)
  : M Filter_Data_t unit :=
  on numerator_ rb_initialize_F ;;
  on denominator_ rb_initialize_F ;;
  on out_list_ rb_initialize_F ;;
  on in_list_ rb_initialize_F ;;
  (* for ( uint8_t i = 0; i <= order; i++ ) *)
  _ <- while_loop fuel
         (fun i => ret (i <=? order)%Z)
         (Filter_Init_step numerator_coeffs denominator_coeffs)
         0%Z ;;
  ret tt.

(** ** Filter_ShiftBy (Filter.c, lines 78-96) *)

(** The stack frame: the caller's filter and the local [temp_shift]. *)
Record ShiftBy_frame : Type := mkFrame {
  p_filt : Filter_Data_t;
  temp_shift : Filter_Data_t
}.

Definition p_filt_ : member ShiftBy_frame Filter_Data_t :=
  Member p_filt (fun p fr => mkFrame p (temp_shift fr)).
Definition temp_shift_ : member ShiftBy_frame Filter_Data_t :=
  Member temp_shift (fun t fr => mkFrame (p_filt fr) t).

(** [rb_length_F( &p_filt->in_list ) != 0], the test at line 85. *)
Definition Filter_ShiftBy_drain_test : M ShiftBy_frame bool :=
  n <- on p_filt_ (on in_list_ rb_length_F) ;; ret (negb (n =? 0)%Z).

(** [rb_length_F( &temp_shift.in_list ) != 0], the test at line 90. *)
Definition Filter_ShiftBy_refill_test : M ShiftBy_frame bool :=
  n <- on temp_shift_ (on in_list_ rb_length_F) ;; ret (negb (n =? 0)%Z).

(** Body of the loop at lines 85-88. *)
Definition Filter_ShiftBy_drain : M ShiftBy_frame unit :=
  x <- on p_filt_ (on in_list_ rb_pop_front_F) ;;
  on temp_shift_ (on in_list_ (rb_push_back_F x)) ;;
  y <- on p_filt_ (on out_list_ rb_pop_front_F) ;;
  on temp_shift_ (on out_list_ (rb_push_back_F y)).

(** Body of the loop at lines 90-93. *)
Definition Filter_ShiftBy_refill (shift_amount : F) : M ShiftBy_frame unit :=
  x <- on temp_shift_ (on in_list_ rb_pop_front_F) ;;
  on p_filt_ (on in_list_ (rb_push_back_F (fadd x shift_amount))) ;;
  y <- on temp_shift_ (on out_list_ rb_pop_front_F) ;;
  on p_filt_ (on out_list_ (rb_push_back_F (fadd y shift_amount))).

Definition Filter_ShiftBy_body (fuel : nat) (shift_amount : F)
  : M ShiftBy_frame unit :=
  on temp_shift_ (on out_list_ rb_initialize_F) ;;
  on temp_shift_ (on in_list_ rb_initialize_F) ;;
  _ <- while_loop fuel
         (fun _ : unit => Filter_ShiftBy_drain_test)
         (fun _ => Filter_ShiftBy_drain) tt ;;
  _ <- while_loop fuel
         (fun _ : unit => Filter_ShiftBy_refill_test)
         (fun _ => Filter_ShiftBy_refill shift_amount) tt ;;
  ret tt.

(** Running a body in a frame whose local starts with the contents [local0]
    and is dropped on return. *)
Definition call_with_local {A : Type} (local0 : Filter_Data_t)
    (body : M ShiftBy_frame A) : M Filter_Data_t A :=
  fun p =>
    match body (mkFrame p local0) with
    | Done (a, fr) => Done (a, p_filt fr)
    | Fault e => Fault e
    | Timeout => Timeout
    end.

(** [temp_shift] is not initialised by its declaration.  Its two history
    buffers are initialised before any use and its coefficient buffers are
    never accessed; [Filter_ShiftBy_body_run] shows for Ready filters that
    the contents chosen here do not matter. *)
Definition Filter_ShiftBy (fuel : nat) (shift_amount : F)
  : M Filter_Data_t unit :=
  call_with_local (mkFilter [] [] [] [])
    (Filter_ShiftBy_body fuel shift_amount).

(** ** Filter_SetTo (Filter.c, lines 104-120) *)

(** One pass of the loop at lines 110-117, returning the incremented
    counter. *)
Definition Filter_SetTo_step (amount : F) (i : Z) : M Filter_Data_t Z :=
  _ <- on in_list_ rb_pop_front_F ;;
  on in_list_ (rb_push_back_F amount) ;;
  _ <- on out_list_ rb_pop_front_F ;;
  on out_list_ (rb_push_back_F amount) ;;
  ret (u8 (i + 1)).

Definition Filter_SetTo (fuel : nat) (amount : F) : M Filter_Data_t unit :=
  n <- on in_list_ rb_length_F ;;
  let length := u8 n in
  (* for (uint8_t i = 0; i < length; i++) *)
  _ <- while_loop fuel
         (fun i => ret (i <? length)%Z)
         (Filter_SetTo_step amount)
         0%Z ;;
  ret tt.

(** ** Filter_Value (Filter.c, lines 128-218) *)

(** One pass of the loop at lines 167-200; the locals are the counter and the
    two running sums. *)
Definition Filter_Value_step (l : Z * F * F) : M Filter_Data_t (Z * F * F) :=
  let '(i, in_sum, out_sum) := l in
  num_b <- on numerator_ rb_pop_front_F ;;
  den_a <- on denominator_ rb_pop_front_F ;;
  in_x <- on in_list_ rb_pop_back_F ;;
  out_y <- on out_list_ rb_pop_back_F ;;
  on numerator_ (rb_push_back_F num_b) ;;
  on denominator_ (rb_push_back_F den_a) ;;
  on in_list_ (rb_push_front_F in_x) ;;
  on out_list_ (rb_push_front_F out_y) ;;
  let in_sum := fadd in_sum (fmul num_b in_x) in
  let out_sum := fadd out_sum (fmul den_a out_y) in
  ret (u8 (i + 1), in_sum, out_sum).

Definition Filter_Value (fuel : nat) (value : F) : M Filter_Data_t F :=
  n <- on numerator_ rb_length_F ;;
  let length := u8 n in
  let in_sum := fzero in
  let out_sum := fzero in
  _ <- on in_list_ rb_pop_front_F ;;
  b0 <- on numerator_ rb_pop_front_F ;;
  a0 <- on denominator_ rb_pop_front_F ;;
  let in_n := value in
  out_n <- on out_list_ rb_pop_front_F ;;  (* the oldest output, dropped *)
  on numerator_ (rb_push_back_F b0) ;;
  on denominator_ (rb_push_back_F a0) ;;
  let in_sum := fadd in_sum (fmul b0 in_n) in
  (* for (uint8_t i = 0; i < length - 1; i++), compared as int *)
  l <- while_loop fuel
         (fun l : Z * F * F => ret (fst (fst l) <? length - 1)%Z)
         Filter_Value_step
         (0%Z, in_sum, out_sum) ;;
  let in_sum := snd (fst l) in
  let out_sum := snd l in
  let out_val := fdiv (fsub in_sum out_sum) a0 in
  (* printf of out_val: no effect on the filter *)
  on in_list_ (rb_push_back_F in_n) ;;
  on out_list_ (rb_push_back_F out_val) ;;
  ret out_val.

(** ** Filter_Last_Output (Filter.c, lines 224-228) *)

Definition Filter_Last_Output : M Filter_Data_t F :=
  n <- on out_list_ rb_length_F ;;
  on out_list_ (rb_get_F (n - 1)).

(** ** print_rb (Filter.c, lines 232-242) *)

(** What [printf] has written: literal text, or a float under [%f] (the
    decimal rendering is left to the C library). *)
Inductive printed : Type :=
| Text (s : String.string)
| Percent_f (x : F).

(** The ring buffer behind the pointer [print_f], and standard output. *)
Record print_state : Type := mkPrint {
  print_f : Ring_Buffer_Float_t;
  stdout : list printed
}.

Definition print_f_ : member print_state Ring_Buffer_Float_t :=
  Member print_f (fun b s => mkPrint b (stdout s)).

Definition printf (items : list printed) : M print_state unit :=
  fun s => Done (tt, mkPrint (print_f s) (stdout s ++ items)).

(** One pass of the loop at lines 235-240, returning the incremented
    counter. *)
Definition print_rb_step (i : Z) : M print_state Z :=
  te <- on print_f_ rb_pop_front_F ;;
  printf [Percent_f te; Text Console.comma_space] ;;
  on print_f_ (rb_push_back_F te) ;;
  ret (u8 (i + 1)).

Definition print_rb (fuel : nat) : M print_state unit :=
  printf [Text Console.newline] ;;
  (* for (uint8_t i = 0; i < rb_length_F( print_f ); i++) *)
  _ <- while_loop fuel
         (fun i => n <- on print_f_ rb_length_F ;; ret (i <? n)%Z)
         print_rb_step
         0%Z ;;
  printf [Text Console.two_newlines].

(** ** Vocabulary of the specification *)

(** Ready: the state [Filter_Init] leaves for order [N], all four buffers
    holding [N+1] elements, within the buffers' capacity and within the
    [uint8_t] the engine keeps lengths in. *)
Definition Ready (N : nat) (f : Filter_Data_t) : Prop :=
  length (numerator f) = S N /\ length (denominator f) = S N /\
  length (in_list f) = S N /\ length (out_list f) = S N /\
  S N <= capacity /\ S N <= 255.

(** All four buffers hold [N+1] elements. *)
Definition lengths_are (N : nat) (f : Filter_Data_t) : Prop :=
  length (numerator f) = S N /\ length (denominator f) = S N /\
  length (in_list f) = S N /\ length (out_list f) = S N.

(** Coefficient [b_i] or [a_i]: position [i] of a coefficient buffer. *)
Definition coef (c : Ring_Buffer_Float_t) (i : nat) : F := nth i c fzero.

(** The [i]-th most recent sample of a history buffer, [i = 1] the newest. *)
Definition recent (h : Ring_Buffer_Float_t) (i : nat) : F :=
  nth (i - 1) (rev h) fzero.

(** [init + g lo + g (lo+1) + ... + g (lo+n-1)], added left to right, the
    order in which the running sums of [Filter_Value] grow. *)
Definition fsum (init : F) (g : nat -> F) (lo n : nat) : F :=
  fold_left (fun acc i => fadd acc (g i)) (seq lo n) init.

(** The running sums as [Filter_Value] accumulates them:
    [init + c1*h1 + c2*h2 + ...], coefficients front to back against history
    samples newest first. *)
Definition paired_sum (init : F) (cs hs : list F) : F :=
  fold_left (fun acc p => fadd acc (fmul (fst p) (snd p))) (combine cs hs) init.

(** The difference equation on the state before the call:
    ( b0*x[n] + Sum_{i=1..N} b_i*x[n-i] - Sum_{i=1..N} a_i*y[n-i] ) / a0. *)
Definition difference_equation (N : nat) (f : Filter_Data_t) (value : F) : F :=
  fdiv
    (fsub
       (fsum (fadd fzero (fmul (coef (numerator f) 0) value))
             (fun i => fmul (coef (numerator f) i) (recent (in_list f) i)) 1 N)
       (fsum fzero
             (fun i => fmul (coef (denominator f) i) (recent (out_list f) i))
             1 N))
    (coef (denominator f) 0).

(** Sequences of calls on a filter. *)
Inductive filter_call : Type :=
| Call_Value (value : F)
| Call_ShiftBy (shift_amount : F)
| Call_SetTo (amount : F).

Definition run_call (fuel : nat) (c : filter_call) : M Filter_Data_t unit :=
  match c with
  | Call_Value value => _ <- Filter_Value fuel value ;; ret tt
  | Call_ShiftBy shift_amount => Filter_ShiftBy fuel shift_amount
  | Call_SetTo amount => Filter_SetTo fuel amount
  end.

(** Runs the calls in order and returns the states seen: the one before each
    call and the final one. *)
Fixpoint run_calls (fuel : nat) (cs : list filter_call)
  : M Filter_Data_t (list Filter_Data_t) :=
  match cs with
  | [] => fun f => Done ([f], f)
  | c :: cs' =>
      fun f => (run_call fuel c ;; t <- run_calls fuel cs' ;; ret (f :: t)) f
  end.

(** Filtering a signal: [Filter_Value] on each sample in turn, the outputs
    collected. *)
Fixpoint Filter_Values (fuel : nat) (values : list F)
  : M Filter_Data_t (list F) :=
  match values with
  | [] => ret []
  | value :: values' =>
      y <- Filter_Value fuel value ;;
      ys <- Filter_Values fuel values' ;;
      ret (y :: ys)
  end.

(** What [print_rb] writes for a buffer: each element under [%f] followed by
    a comma and a space, oldest first, between a newline and two. *)
Definition print_rb_output (b : Ring_Buffer_Float_t) : list printed :=
  [Text Console.newline]
  ++ flat_map (fun x => [Percent_f x; Text Console.comma_space]) b
  ++ [Text Console.two_newlines].

(** * Properties *)

(** ** Ring buffer steps *)

Lemma rb_push_back_F_ok (v : F) (b : Ring_Buffer_Float_t) :
  length b < capacity -> rb_push_back_F v b = Done (tt, b ++ [v]).
Proof.
  intros H. unfold rb_push_back_F.
  destruct (Nat.eqb_spec (length b) capacity); [lia | reflexivity].
Qed.

Lemma rb_push_front_F_ok (v : F) (b : Ring_Buffer_Float_t) :
  length b < capacity -> rb_push_front_F v b = Done (tt, v :: b).
Proof.
  intros H. unfold rb_push_front_F.
  destruct (Nat.eqb_spec (length b) capacity); [lia | reflexivity].
Qed.

Lemma rb_pop_back_F_snoc (x : F) (b : Ring_Buffer_Float_t) :
  rb_pop_back_F (b ++ [x]) = Done (x, b).
Proof.
  unfold rb_pop_back_F. rewrite rev_app_distr. simpl.
  now rewrite rev_involutive.
Qed.

(** Symbolic execution of straight-line buffer code: pushes are discharged
    by the side condition on the length, pops at the back need the buffer
    written [_ ++ [x]]. *)
Ltac buffer_fits :=
  assumption ||
  (repeat (rewrite ?length_app, ?length_rev; cbn [length]); lia).

Ltac run_buffers :=
  unfold bind, on, ret;
  repeat first
    [ progress cbn -[rb_pop_back_F rb_push_back_F rb_push_front_F Nat.ltb
                     Z.ltb Z.leb Z.of_nat u8 Z.sub Z.add]
    | rewrite rb_pop_back_F_snoc
    | rewrite rb_push_back_F_ok by buffer_fits
    | rewrite rb_push_front_F_ok by buffer_fits ];
  try reflexivity.

(** ** The loop of Filter_Value *)

(** One pass, on buffers written so that the popped elements show. *)
Lemma Filter_Value_step_run (i : Z) (in_sum out_sum b a r s : F)
    (nums dens outs ins : list F) :
  length nums < capacity -> length dens < capacity ->
  length outs < capacity -> length ins < capacity ->
  Filter_Value_step (i, in_sum, out_sum)
    (mkFilter (b :: nums) (a :: dens) (outs ++ [s]) (ins ++ [r]))
  = Done ((u8 (i + 1), fadd in_sum (fmul b r), fadd out_sum (fmul a s)),
          mkFilter (nums ++ [b]) (dens ++ [a]) (s :: outs) (r :: ins)).
Proof.
  intros Hn Hd Ho Hi.
  unfold Filter_Value_step. run_buffers.
Qed.

Lemma Filter_Value_loop (len : Z) (bs : list F) :
  forall (as_ rx ry nb na yo xi : list F) (fuel : nat) (i : Z)
         (in_sum out_sum : F),
    length as_ = length bs -> length rx = length bs ->
    length ry = length bs ->
    length bs + length nb <= capacity -> length as_ + length na <= capacity ->
    length yo + length ry <= capacity -> length xi + length rx <= capacity ->
    (0 <= i)%Z -> (i + Z.of_nat (length bs) = len - 1)%Z -> (len <= 255)%Z ->
    while_loop fuel
      (fun l : Z * F * F => ret (fst (fst l) <? len - 1)%Z)
      Filter_Value_step (i, in_sum, out_sum)
      (mkFilter (bs ++ nb) (as_ ++ na) (yo ++ rev ry) (xi ++ rev rx))
    = if length bs <? fuel
      then Done ((len - 1, paired_sum in_sum bs rx, paired_sum out_sum as_ ry)%Z,
                 mkFilter (nb ++ bs) (na ++ as_) (rev ry ++ yo) (rev rx ++ xi))
      else Timeout.
Proof.
  induction bs as [|b bs IH];
    intros as_ rx ry nb na yo xi fuel i in_sum out_sum Ha Hx Hy Cn Cd Co Ci
           Hi0 Hi Hlen.
  - destruct as_; [|discriminate]. destruct rx; [|discriminate].
    destruct ry; [|discriminate]. cbn [length] in *.
    destruct fuel as [|fuel]; [reflexivity|].
    cbn [while_loop]. unfold bind, ret; cbn [fst].
    replace (i <? len - 1)%Z with false by (symmetry; apply Z.ltb_ge; lia).
    cbn [rev app]. rewrite !app_nil_r. replace i with (len - 1)%Z by lia.
    reflexivity.
  - destruct as_ as [|a as_]; [discriminate|].
    destruct rx as [|r rx]; [discriminate|].
    destruct ry as [|s ry]; [discriminate|].
    cbn [length] in *. rewrite Nat2Z.inj_succ in Hi.
    destruct fuel as [|fuel]; [reflexivity|].
    cbn [while_loop]. unfold bind at 1. unfold ret at 1. cbn [fst].
    replace (i <? len - 1)%Z with true by (symmetry; apply Z.ltb_lt; lia).
    unfold bind at 1.
    cbn [rev]. rewrite !app_assoc. rewrite <- !app_comm_cons.
    rewrite Filter_Value_step_run
      by (rewrite length_app, ?length_rev; lia).
    rewrite <- !app_assoc.
    rewrite !(app_comm_cons _ _ s), !(app_comm_cons _ _ r).
    replace (u8 (i + 1)) with (i + 1)%Z
      by (unfold u8; rewrite Z.mod_small; lia).
    rewrite IH; try lia; try (rewrite ?length_app; cbn [length]; lia).
    change (S (length bs) <? S fuel) with (length bs <? fuel).
    destruct (length bs <? fuel); [|reflexivity].
    unfold paired_sum; cbn [combine fold_left fst snd].
    rewrite <- !app_assoc. reflexivity.
Qed.

(** [Filter_Value] on a state whose buffers are written head first. *)
Lemma Filter_Value_run (fuel : nat) (value b0 a0 y0 x0 : F)
    (bs as_ ys xs : list F) :
  length as_ = length bs -> length ys = length bs -> length xs = length bs ->
  S (length bs) <= capacity -> S (length bs) <= 255 ->
  Filter_Value fuel value (mkFilter (b0 :: bs) (a0 :: as_) (y0 :: ys) (x0 :: xs))
  = if length bs <? fuel
    then
      let out_val :=
        fdiv (fsub (paired_sum (fadd fzero (fmul b0 value)) bs (rev xs))
                   (paired_sum fzero as_ (rev ys))) a0 in
      Done (out_val,
            mkFilter (b0 :: bs) (a0 :: as_) (ys ++ [out_val]) (xs ++ [value]))
    else Timeout.
Proof.
  intros Ha Hy Hx Hcap H255.
  unfold Filter_Value.
  do 5 (unfold bind at 1; unfold on at 1;
        cbn -[rb_push_back_F while_loop u8 Z.of_nat Z.sub length bind on
              Nat.ltb]).
  do 2 (unfold bind at 1; unfold on at 1;
        cbn -[rb_push_back_F while_loop u8 Z.of_nat Z.sub length bind on
              Nat.ltb];
        rewrite rb_push_back_F_ok by lia).
  unfold bind at 1.
  replace (u8 (Z.of_nat (length (b0 :: bs)))) with (Z.of_nat (S (length bs)))
    by (unfold u8; rewrite Z.mod_small; cbn [length]; lia).
  pose proof (@Filter_Value_loop (Z.of_nat (S (length bs))) bs as_ (rev xs)
                (rev ys) [b0] [a0] [] [] fuel 0
                (fadd fzero (fmul b0 value)) fzero) as L.
  rewrite !rev_involutive in L. cbn [app] in L.
  rewrite L; rewrite ?length_rev; cbn [length]; try lia.
  destruct (length bs <? fuel); [|reflexivity].
  rewrite !app_nil_r.
  run_buffers.
Qed.

(** ** From running sums to indexed sums *)

Lemma Ready_shape (N : nat) (f : Filter_Data_t) :
  Ready N f ->
  exists b0 bs a0 as_ y0 ys x0 xs,
    f = mkFilter (b0 :: bs) (a0 :: as_) (y0 :: ys) (x0 :: xs) /\
    length bs = N /\ length as_ = N /\ length ys = N /\ length xs = N.
Proof.
  destruct f as [[|b0 bs] [|a0 as_] [|y0 ys] [|x0 xs]];
    unfold Ready; cbn [numerator denominator out_list in_list length];
    intros (Hn & Hd & Hi & Ho & _); try discriminate.
  exists b0, bs, a0, as_, y0, ys, x0, xs.
  repeat split; congruence.
Qed.

Lemma fsum_ext (init : F) (g g' : nat -> F) (lo n : nat) :
  (forall i, lo <= i < lo + n -> g i = g' i) ->
  fsum init g lo n = fsum init g' lo n.
Proof.
  unfold fsum. revert init lo.
  induction n as [|n IH]; intros init lo H; [reflexivity|].
  cbn [seq fold_left]. rewrite (H lo) by lia.
  apply IH. intros i Hi. apply H. lia.
Qed.

Lemma paired_sum_fsum (cs : list F) :
  forall (hs : list F) (init : F) (lo : nat),
    length hs = length cs ->
    paired_sum init cs hs
    = fsum init (fun i => fmul (nth (i - lo) cs fzero) (nth (i - lo) hs fzero))
           lo (length cs).
Proof.
  induction cs as [|c cs IH]; intros [|h hs] init lo Hl; try discriminate;
    [reflexivity|].
  unfold paired_sum, fsum in *. cbn [length seq combine fold_left fst snd].
  rewrite Nat.sub_diag. cbn [nth].
  rewrite (IH hs _ (S lo)) by (cbn [length] in Hl; lia).
  apply fsum_ext. intros i Hi.
  replace (i - lo) with (S (i - S lo)) by lia. reflexivity.
Qed.

Lemma recent_cons (x0 : F) (xs : list F) (i : nat) :
  1 <= i <= length xs ->
  recent (x0 :: xs) i = nth (i - 1) (rev xs) fzero.
Proof.
  intros Hi. unfold recent. cbn [rev].
  apply app_nth1. rewrite length_rev. lia.
Qed.

Lemma coef_cons (c0 : F) (cs : list F) (i : nat) :
  1 <= i -> coef (c0 :: cs) i = nth (i - 1) cs fzero.
Proof.
  intros Hi. unfold coef. destruct i as [|i]; [lia|].
  replace (S i - 1) with i by lia. reflexivity.
Qed.

(** The running sum of [Filter_Value] is the indexed sum of the difference
    equation. *)
Lemma paired_sum_indexed (init c0 h0 : F) (cs hs : list F) :
  length hs = length cs ->
  paired_sum init cs (rev hs)
  = fsum init (fun i => fmul (coef (c0 :: cs) i) (recent (h0 :: hs) i))
         1 (length cs).
Proof.
  intros Hl. rewrite (paired_sum_fsum cs (rev hs) init 1)
    by (now rewrite length_rev).
  apply fsum_ext. intros i Hi.
  rewrite coef_cons by lia. rewrite recent_cons by lia. reflexivity.
Qed.

(** ** Filter_Value on Ready filters *)

(** [Filter_Value] on a Ready filter, for any fuel. *)
Lemma Filter_Value_Ready_run (N fuel : nat) (f : Filter_Data_t) (value : F) :
  Ready N f ->
  Filter_Value fuel value f
  = if N <? fuel
    then Done (difference_equation N f value,
               mkFilter (numerator f) (denominator f)
                        (tl (out_list f) ++ [difference_equation N f value])
                        (tl (in_list f) ++ [value]))
    else Timeout.
Proof.
  intros HR.
  destruct (Ready_shape HR)
    as (b0 & bs & a0 & as_ & y0 & ys & x0 & xs & -> & Hb & Ha & Hy & Hx).
  destruct HR as (_ & _ & _ & _ & Hcap & H255).
  rewrite Filter_Value_run by lia.
  rewrite Hb. destruct (N <? fuel); [|reflexivity].
  unfold difference_equation.
  cbn [numerator denominator out_list in_list tl].
  rewrite (paired_sum_indexed _ b0 x0 bs xs) by lia.
  rewrite (paired_sum_indexed _ a0 y0 as_ ys) by lia.
  rewrite Hb, Ha. reflexivity.
Qed.

Lemma Filter_Value_keeps_Ready (N : nat) (f : Filter_Data_t) (value out : F) :
  Ready N f ->
  Ready N (mkFilter (numerator f) (denominator f)
                    (tl (out_list f) ++ [out]) (tl (in_list f) ++ [value])).
Proof.
  intros HR.
  destruct (Ready_shape HR)
    as (b0 & bs & a0 & as_ & y0 & ys & x0 & xs & -> & Hb & Ha & Hy & Hx).
  destruct HR as (_ & _ & _ & _ & Hcap & H255).
  unfold Ready. cbn [numerator denominator out_list in_list tl length].
  rewrite !length_app. cbn [length]. lia.
Qed.

(** ** Filter_Last_Output *)

Lemma Filter_Last_Output_run (nums dens ys xs : list F) (y : F) :
  Filter_Last_Output (mkFilter nums dens (ys ++ [y]) xs)
  = Done (y, mkFilter nums dens (ys ++ [y]) xs).
Proof.
  unfold Filter_Last_Output, bind, on, rb_length_F, rb_get_F.
  cbn [fget fset out_list_ out_list numerator denominator in_list].
  rewrite length_app. cbn [length].
  replace (Z.of_nat (length ys + 1) - 1)%Z with (Z.of_nat (length ys)) by lia.
  replace (Z.of_nat (length ys) <? 0)%Z with false
    by (symmetry; apply Z.ltb_ge; lia).
  rewrite Nat2Z.id, nth_error_app2 by lia.
  rewrite Nat.sub_diag. reflexivity.
Qed.

Lemma Filter_Last_Output_Ready (N : nat) (f : Filter_Data_t) :
  Ready N f ->
  Filter_Last_Output f
  = Done (nth (length (out_list f) - 1) (out_list f) fzero, f).
Proof.
  intros HR.
  destruct (Ready_shape HR)
    as (b0 & bs & a0 & as_ & y0 & ys & x0 & xs & -> & _).
  cbn [out_list].
  destruct (exists_last (l := y0 :: ys)) as (ys' & y & E); [discriminate|].
  rewrite E, Filter_Last_Output_run.
  rewrite length_app. cbn [length].
  replace (length ys' + 1 - 1) with (length ys') by lia.
  now rewrite nth_middle.
Qed.

(** ** Filter_SetTo *)

Lemma Filter_SetTo_loop (amount : F) (len : Z) (rem : list F) :
  forall (orem done odone nums dens : list F) (fuel : nat) (i : Z),
    length orem = length rem ->
    length rem + length done <= capacity ->
    length orem + length odone <= capacity ->
    (0 <= i)%Z -> (i + Z.of_nat (length rem) = len)%Z -> (len <= 255)%Z ->
    while_loop fuel (fun i => ret (i <? len)%Z) (Filter_SetTo_step amount) i
      (mkFilter nums dens (orem ++ odone) (rem ++ done))
    = if length rem <? fuel
      then Done (len,
                 mkFilter nums dens
                          (odone ++ repeat amount (length rem))
                          (done ++ repeat amount (length rem)))
      else Timeout.
Proof.
  induction rem as [|x rem IH];
    intros orem done odone nums dens fuel i Ho Ci Co Hi0 Hi Hlen.
  - destruct orem; [|discriminate]. cbn [length] in *.
    destruct fuel as [|fuel]; [reflexivity|].
    cbn [while_loop]. unfold bind, ret.
    replace (i <? len)%Z with false by (symmetry; apply Z.ltb_ge; lia).
    cbn [repeat app]. rewrite !app_nil_r. replace i with len by lia.
    reflexivity.
  - destruct orem as [|y orem]; [discriminate|].
    cbn [length] in *. rewrite Nat2Z.inj_succ in Hi.
    destruct fuel as [|fuel]; [reflexivity|].
    cbn [while_loop]. unfold bind at 1. unfold ret at 1.
    replace (i <? len)%Z with true by (symmetry; apply Z.ltb_lt; lia).
    unfold bind at 1.
    replace (Filter_SetTo_step amount i
               (mkFilter nums dens ((y :: orem) ++ odone) ((x :: rem) ++ done)))
      with (Done (u8 (i + 1),
                  mkFilter nums dens (orem ++ odone ++ [amount])
                           (rem ++ done ++ [amount]))).
    2:{ unfold Filter_SetTo_step. symmetry. run_buffers.
        now rewrite <- !app_assoc. }
    replace (u8 (i + 1)) with (i + 1)%Z
      by (unfold u8; rewrite Z.mod_small; lia).
    rewrite IH; try lia; try (rewrite ?length_app; cbn [length]; lia).
    change (S (length rem) <? S fuel) with (length rem <? fuel).
    destruct (length rem <? fuel); [|reflexivity].
    rewrite <- !app_assoc. reflexivity.
Qed.

Lemma Filter_SetTo_run (N fuel : nat) (f : Filter_Data_t) (amount : F) :
  Ready N f ->
  Filter_SetTo fuel amount f
  = if S N <? fuel
    then Done (tt, mkFilter (numerator f) (denominator f)
                            (repeat amount (S N)) (repeat amount (S N)))
    else Timeout.
Proof.
  intros HR.
  destruct f as [nums dens ys xs].
  destruct HR as (Hn & Hd & Hx & Hy & Hcap & H255).
  cbn [numerator denominator out_list in_list] in *.
  unfold Filter_SetTo.
  unfold bind at 1, on at 1, rb_length_F.
  cbn [fget fset in_list_ in_list numerator denominator out_list].
  replace (u8 (Z.of_nat (length xs))) with (Z.of_nat (S N))
    by (unfold u8; rewrite Z.mod_small; lia).
  unfold bind at 1.
  pose proof (@Filter_SetTo_loop amount (Z.of_nat (S N)) xs ys [] [] nums dens
                fuel 0%Z) as L.
  rewrite !app_nil_r in L. rewrite L; cbn [length]; try lia.
  rewrite Hx. destruct (S N <? fuel); reflexivity.
Qed.

(** ** Filter_ShiftBy *)

Lemma Filter_ShiftBy_drain_loop (rem : list F) :
  forall (orem tin tout nums dens tn td : list F) (fuel : nat),
    length orem = length rem ->
    length tin + length rem <= capacity ->
    length tout + length orem <= capacity ->
    while_loop fuel (fun _ : unit => Filter_ShiftBy_drain_test)
      (fun _ => Filter_ShiftBy_drain) tt
      (mkFrame (mkFilter nums dens orem rem) (mkFilter tn td tout tin))
    = if length rem <? fuel
      then Done (tt, mkFrame (mkFilter nums dens [] [])
                             (mkFilter tn td (tout ++ orem) (tin ++ rem)))
      else Timeout.
Proof.
  induction rem as [|x rem IH];
    intros orem tin tout nums dens tn td fuel Ho Ci Co.
  - destruct orem; [|discriminate].
    destruct fuel as [|fuel]; [reflexivity|].
    cbn [while_loop]. unfold Filter_ShiftBy_drain_test, rb_length_F.
    run_buffers. now rewrite !app_nil_r.
  - destruct orem as [|y orem]; [discriminate|]. cbn [length] in *.
    destruct fuel as [|fuel]; [reflexivity|].
    cbn [while_loop]. unfold bind at 1.
    replace (Filter_ShiftBy_drain_test
               (mkFrame (mkFilter nums dens (y :: orem) (x :: rem))
                        (mkFilter tn td tout tin)))
      with (Done (true, mkFrame (mkFilter nums dens (y :: orem) (x :: rem))
                                (mkFilter tn td tout tin)))
      by reflexivity.
    unfold bind at 1.
    replace (Filter_ShiftBy_drain
               (mkFrame (mkFilter nums dens (y :: orem) (x :: rem))
                        (mkFilter tn td tout tin)))
      with (Done (tt, mkFrame (mkFilter nums dens orem rem)
                              (mkFilter tn td (tout ++ [y]) (tin ++ [x])))).
    2:{ unfold Filter_ShiftBy_drain, rb_pop_front_F. symmetry. run_buffers. }
    rewrite IH; try lia; try (rewrite ?length_app; cbn [length]; lia).
    change (S (length rem) <? S fuel) with (length rem <? fuel).
    destruct (length rem <? fuel); [|reflexivity].
    rewrite <- !app_assoc. reflexivity.
Qed.

Lemma Filter_ShiftBy_refill_loop (shift_amount : F) (rem : list F) :
  forall (orem pin pout nums dens tn td : list F) (fuel : nat),
    length orem = length rem ->
    length pin + length rem <= capacity ->
    length pout + length orem <= capacity ->
    while_loop fuel (fun _ : unit => Filter_ShiftBy_refill_test)
      (fun _ => Filter_ShiftBy_refill shift_amount) tt
      (mkFrame (mkFilter nums dens pout pin) (mkFilter tn td orem rem))
    = if length rem <? fuel
      then Done (tt,
                 mkFrame
                   (mkFilter nums dens
                      (pout ++ map (fun y => fadd y shift_amount) orem)
                      (pin ++ map (fun x => fadd x shift_amount) rem))
                   (mkFilter tn td [] []))
      else Timeout.
Proof.
  induction rem as [|x rem IH];
    intros orem pin pout nums dens tn td fuel Ho Ci Co.
  - destruct orem; [|discriminate].
    destruct fuel as [|fuel]; [reflexivity|].
    cbn [while_loop]. unfold Filter_ShiftBy_refill_test, rb_length_F.
    run_buffers. now rewrite !app_nil_r.
  - destruct orem as [|y orem]; [discriminate|]. cbn [length] in *.
    destruct fuel as [|fuel]; [reflexivity|].
    cbn [while_loop]. unfold bind at 1.
    replace (Filter_ShiftBy_refill_test
               (mkFrame (mkFilter nums dens pout pin)
                        (mkFilter tn td (y :: orem) (x :: rem))))
      with (Done (true, mkFrame (mkFilter nums dens pout pin)
                                (mkFilter tn td (y :: orem) (x :: rem))))
      by reflexivity.
    unfold bind at 1.
    replace (Filter_ShiftBy_refill shift_amount
               (mkFrame (mkFilter nums dens pout pin)
                        (mkFilter tn td (y :: orem) (x :: rem))))
      with (Done (tt, mkFrame
                        (mkFilter nums dens (pout ++ [fadd y shift_amount])
                                  (pin ++ [fadd x shift_amount]))
                        (mkFilter tn td orem rem))).
    2:{ unfold Filter_ShiftBy_refill, rb_pop_front_F. symmetry. run_buffers. }
    rewrite IH; try lia; try (rewrite ?length_app; cbn [length]; lia).
    change (S (length rem) <? S fuel) with (length rem <? fuel).
    destruct (length rem <? fuel); [|reflexivity].
    cbn [map]. rewrite <- !app_assoc. reflexivity.
Qed.

(** The body of [Filter_ShiftBy] in a frame whose local holds anything. *)
Lemma Filter_ShiftBy_body_run (N fuel : nat) (f local0 : Filter_Data_t)
    (shift_amount : F) :
  Ready N f ->
  Filter_ShiftBy_body fuel shift_amount (mkFrame f local0)
  = if S N <? fuel
    then Done (tt,
               mkFrame
                 (mkFilter (numerator f) (denominator f)
                    (map (fun y => fadd y shift_amount) (out_list f))
                    (map (fun x => fadd x shift_amount) (in_list f)))
                 (mkFilter (numerator local0) (denominator local0) [] []))
    else Timeout.
Proof.
  intros HR.
  destruct f as [nums dens ys xs]. destruct local0 as [tn td tout tin].
  destruct HR as (Hn & Hd & Hx & Hy & Hcap & H255).
  cbn [numerator denominator out_list in_list] in *.
  unfold Filter_ShiftBy_body.
  do 2 (unfold bind at 1; unfold on at 1 2, rb_initialize_F;
        cbn [fget fset temp_shift_ temp_shift p_filt out_list_ in_list_
             numerator denominator out_list in_list]).
  unfold bind at 1.
  rewrite Filter_ShiftBy_drain_loop by (cbn [app length]; lia).
  rewrite Hx. destruct (S N <? fuel) eqn:E; [|reflexivity].
  unfold bind at 1.
  rewrite Filter_ShiftBy_refill_loop by (cbn [app length]; lia).
  cbn [app]. rewrite Hx, E. reflexivity.
Qed.

Lemma Filter_ShiftBy_run (N fuel : nat) (f : Filter_Data_t) (shift_amount : F) :
  Ready N f ->
  Filter_ShiftBy fuel shift_amount f
  = if S N <? fuel
    then Done (tt, mkFilter (numerator f) (denominator f)
                     (map (fun y => fadd y shift_amount) (out_list f))
                     (map (fun x => fadd x shift_amount) (in_list f)))
    else Timeout.
Proof.
  intros HR. unfold Filter_ShiftBy, call_with_local.
  rewrite (Filter_ShiftBy_body_run _ _ _ HR).
  destruct (S N <? fuel); reflexivity.
Qed.

(** ** Filter_Init *)

Lemma skipn_nth_error (l : list F) (n : nat) (x : F) :
  nth_error l n = Some x -> skipn n l = x :: skipn (S n) l.
Proof.
  revert n. induction l as [|y l IH]; intros [|n] H; try discriminate.
  - injection H as ->. reflexivity.
  - cbn [nth_error] in H. cbn [skipn]. rewrite (IH n H). reflexivity.
Qed.

Lemma firstn_nth_error (l : list F) (n : nat) (x : F) :
  nth_error l n = Some x -> firstn (S n) l = firstn n l ++ [x].
Proof.
  revert n. induction l as [|y l IH]; intros [|n] H; try discriminate.
  - injection H as ->. reflexivity.
  - cbn [nth_error] in H. rewrite !firstn_cons, (IH n H). reflexivity.
Qed.

Lemma nth_error_in_range (l : list F) (n : nat) :
  n < length l -> exists x, nth_error l n = Some x.
Proof.
  intros H. destruct (nth_error l n) as [x|] eqn:E; [now exists x|].
  apply nth_error_None in E. lia.
Qed.

(** One pass of the loop of [Filter_Init] below the capacity. *)
Lemma Filter_Init_step_run (nc dc nums dens outs ins : list F) (n : nat)
    (x y : F) :
  nth_error nc n = Some x -> nth_error dc n = Some y ->
  length nums < capacity -> length dens < capacity ->
  length outs < capacity -> length ins < capacity ->
  Filter_Init_step nc dc (Z.of_nat n) (mkFilter nums dens outs ins)
  = Done (u8 (Z.of_nat n + 1),
          mkFilter (nums ++ [x]) (dens ++ [y]) (outs ++ [fzero])
                   (ins ++ [fzero])).
Proof.
  intros Hx Hy Cn Cd Co Ci.
  unfold Filter_Init_step, array_read. rewrite Nat2Z.id.
  unfold bind at 1. rewrite Hx.
  unfold bind at 1, on at 1. cbn [fget fset numerator_ numerator].
  rewrite rb_push_back_F_ok by assumption.
  unfold bind at 1. rewrite Hy.
  run_buffers.
Qed.

Lemma Filter_Init_loop (N : nat) (nc dc : list F) (k : nat) :
  forall (n fuel : nat) (nums dens outs ins : list F),
    length nc = S N -> length dc = S N -> N <= 254 ->
    n + k = S N ->
    length nums + k <= capacity -> length dens + k <= capacity ->
    length outs + k <= capacity -> length ins + k <= capacity ->
    while_loop fuel (fun i => ret (i <=? Z.of_nat N)%Z)
      (Filter_Init_step nc dc) (Z.of_nat n) (mkFilter nums dens outs ins)
    = if k <? fuel
      then Done (Z.of_nat (S N),
                 mkFilter (nums ++ skipn n nc) (dens ++ skipn n dc)
                          (outs ++ repeat fzero k) (ins ++ repeat fzero k))
      else Timeout.
Proof.
  induction k as [|k IH];
    intros n fuel nums dens outs ins Hnc Hdc HN Hn Cn Cd Co Ci.
  - destruct fuel as [|fuel]; [reflexivity|].
    cbn [while_loop]. unfold bind, ret.
    replace (Z.of_nat n <=? Z.of_nat N)%Z with false
      by (symmetry; apply Z.leb_gt; lia).
    rewrite !skipn_all2 by lia. cbn [repeat]. rewrite !app_nil_r.
    replace n with (S N) by lia. reflexivity.
  - destruct fuel as [|fuel]; [reflexivity|].
    cbn [while_loop]. unfold bind at 1. unfold ret at 1.
    replace (Z.of_nat n <=? Z.of_nat N)%Z with true
      by (symmetry; apply Z.leb_le; lia).
    unfold bind at 1.
    destruct (@nth_error_in_range nc n) as [x Hx]; [lia|].
    destruct (@nth_error_in_range dc n) as [y Hy]; [lia|].
    rewrite (@Filter_Init_step_run nc dc nums dens outs ins n x y Hx Hy)
      by lia.
    replace (u8 (Z.of_nat n + 1)) with (Z.of_nat (S n))
      by (unfold u8; rewrite Z.mod_small; lia).
    rewrite IH; try lia; try (rewrite ?length_app; cbn [length]; lia).
    change (S k <? S fuel) with (k <? fuel).
    destruct (k <? fuel); [|reflexivity].
    rewrite (@skipn_nth_error nc n x Hx), (@skipn_nth_error dc n y Hy).
    cbn [repeat]. rewrite <- !app_assoc. reflexivity.
Qed.

(** [Filter_Init] for an order below 255 whose coefficients fit the
    buffers. *)
Lemma Filter_Init_run (N fuel : nat) (nc dc : list F) (f : Filter_Data_t) :
  length nc = S N -> length dc = S N -> N <= 254 -> S N <= capacity ->
  Filter_Init fuel nc dc (Z.of_nat N) f
  = if S N <? fuel
    then Done (tt, mkFilter nc dc (repeat fzero (S N)) (repeat fzero (S N)))
    else Timeout.
Proof.
  intros Hnc Hdc HN Hcap.
  unfold Filter_Init.
  do 4 (unfold bind at 1; unfold on at 1, rb_initialize_F;
        cbn [fget fset numerator_ denominator_ out_list_ in_list_
             numerator denominator out_list in_list]).
  unfold bind at 1.
  rewrite (@Filter_Init_loop N nc dc (S N) 0); cbn [length]; try lia.
  destruct (S N <? fuel); reflexivity.
Qed.

(** ** What a returning Filter_Init has done *)


Lemma bind_Done {S A B : Type} (m : M S A) (k : A -> M S B) (s : S)
    (r : B * S) :
  bind m k s = Done r ->
  exists a s', m s = Done (a, s') /\ k a s' = Done r.
Proof.
  unfold bind. destruct (m s) as [[a s']| |]; try discriminate.
  intros H. now exists a, s'.
Qed.

Lemma Filter_Init_step_inv (nc dc : list F) (i i' : Z)
    (st st' : Filter_Data_t) :
  Filter_Init_step nc dc i st = Done (i', st') ->
  exists x y,
    nth_error nc (Z.to_nat i) = Some x /\ nth_error dc (Z.to_nat i) = Some y /\
    length (numerator st) <> capacity /\ length (denominator st) <> capacity /\
    length (in_list st) <> capacity /\ length (out_list st) <> capacity /\
    i' = u8 (i + 1) /\
    st' = mkFilter (numerator st ++ [x]) (denominator st ++ [y])
                   (out_list st ++ [fzero]) (in_list st ++ [fzero]).
Proof.
  destruct st as [nums dens outs ins].
  unfold Filter_Init_step, array_read, bind, on, rb_push_back_F, ret.
  cbn [fget fset numerator_ denominator_ out_list_ in_list_
       numerator denominator out_list in_list].
  intros H.
  destruct (nth_error nc (Z.to_nat i)) as [x|]; cbn in H; [|discriminate H].
  destruct (Nat.eqb_spec (length nums) capacity); cbn in H; [discriminate H|].
  destruct (nth_error dc (Z.to_nat i)) as [y|]; cbn in H; [|discriminate H].
  destruct (Nat.eqb_spec (length dens) capacity); cbn in H; [discriminate H|].
  destruct (Nat.eqb_spec (length ins) capacity); cbn in H; [discriminate H|].
  destruct (Nat.eqb_spec (length outs) capacity); cbn in H; [discriminate H|].
  injection H as <- <-. exists x, y. repeat split; assumption.
Qed.

(** With [order = 255] the test [i <= order] holds for every [uint8_t] and
    the loop of [Filter_Init] is never left. *)
Lemma Filter_Init_loop_255 (nc dc : list F) (fuel : nat) :
  forall (i : Z) (st : Filter_Data_t) (r : Z * Filter_Data_t),
    (0 <= i < 256)%Z ->
    while_loop fuel (fun i => ret (i <=? 255)%Z) (Filter_Init_step nc dc) i st
    <> Done r.
Proof.
  induction fuel as [|fuel IH]; intros i st r Hi; [discriminate|].
  cbn [while_loop]. unfold bind at 1. unfold ret at 1.
  replace (i <=? 255)%Z with true by (symmetry; apply Z.leb_le; lia).
  intros H. apply bind_Done in H as (i' & st' & Hstep & Hloop).
  apply Filter_Init_step_inv in Hstep
    as (x & y & _ & _ & _ & _ & _ & _ & -> & _).
  apply (IH (u8 (i + 1)) st' r); [|exact Hloop].
  unfold u8. apply Z.mod_pos_bound. lia.
Qed.

Lemma Filter_Init_loop_inv (N : nat) (nc dc : list F) (fuel : nat) :
  length nc = S N -> length dc = S N -> N <= 255 ->
  forall (n : nat) (r : Z * Filter_Data_t),
    n <= S N -> n <= 255 -> n <= capacity ->
    while_loop fuel (fun i => ret (i <=? Z.of_nat N)%Z)
      (Filter_Init_step nc dc) (Z.of_nat n)
      (mkFilter (firstn n nc) (firstn n dc) (repeat fzero n) (repeat fzero n))
    = Done r ->
    N <= 254 /\ S N <= capacity /\
    r = (Z.of_nat (S N),
         mkFilter nc dc (repeat fzero (S N)) (repeat fzero (S N))).
Proof.
  intros Hnc Hdc HN.
  induction fuel as [|fuel IH]; intros n r Hn H255 Hcap; [discriminate|].
  cbn [while_loop]. unfold bind at 1. unfold ret at 1.
  destruct (Z.leb_spec (Z.of_nat n) (Z.of_nat N)) as [Hle|Hgt].
  - intros H. apply bind_Done in H as (i' & st' & Hstep & Hloop).
    apply Filter_Init_step_inv in Hstep
      as (x & y & Hx & Hy & Cn & _ & _ & _ & -> & ->).
    cbn [numerator denominator out_list in_list] in *.
    rewrite Nat2Z.id in Hx, Hy.
    rewrite length_firstn in Cn.
    rewrite <- (firstn_nth_error _ _ Hx), <- (firstn_nth_error _ _ Hy) in Hloop.
    rewrite <- repeat_cons in Hloop.
    change (fzero :: repeat fzero n) with (repeat fzero (S n)) in Hloop.
    destruct (Nat.eq_dec n 255) as [->|Hne].
    + exfalso. replace N with 255 in Hloop by lia.
      revert Hloop. apply Filter_Init_loop_255.
      unfold u8. apply Z.mod_pos_bound. lia.
    + replace (u8 (Z.of_nat n + 1)) with (Z.of_nat (S n)) in Hloop
        by (unfold u8; rewrite Z.mod_small; lia).
      apply (IH (S n) r); [lia | lia | lia | exact Hloop].
  - unfold ret. intros H. injection H as <-.
    assert (n = S N) as -> by lia.
    rewrite !firstn_all2 by lia.
    repeat split; try lia.
Qed.

(** If [Filter_Init] returns, the order is below 255, the buffers can hold
    [order+1] elements and the filter holds the coefficients and zeros. *)
Lemma Filter_Init_returns (N fuel : nat) (nc dc : list F)
    (f0 : Filter_Data_t) (r : unit * Filter_Data_t) :
  length nc = S N -> length dc = S N -> N <= 255 ->
  Filter_Init fuel nc dc (Z.of_nat N) f0 = Done r ->
  N <= 254 /\ S N <= capacity /\
  r = (tt, mkFilter nc dc (repeat fzero (S N)) (repeat fzero (S N))).
Proof.
  intros Hnc Hdc HN. unfold Filter_Init.
  do 4 (unfold bind at 1; unfold on at 1, rb_initialize_F;
        cbn [fget fset numerator_ denominator_ out_list_ in_list_
             numerator denominator out_list in_list]).
  intros H. apply bind_Done in H as (i' & st' & Hloop & Hret).
  apply (@Filter_Init_loop_inv N nc dc fuel Hnc Hdc HN 0) in Hloop;
    try lia.
  destruct Hloop as (H254 & Hcap & E). injection E as -> ->.
  unfold ret in Hret. injection Hret as <-. repeat split; assumption.
Qed.

(** Reading a buffer position by position gives the list, oldest first. *)
Lemma rb_get_F_reads (b : Ring_Buffer_Float_t) (i : nat) :
  i < length b -> rb_get_F (Z.of_nat i) b = Done (nth i b fzero, b).
Proof.
  intros Hi. unfold rb_get_F.
  replace (Z.of_nat i <? 0)%Z with false by (symmetry; apply Z.ltb_ge; lia).
  rewrite Nat2Z.id.
  now rewrite (nth_error_nth' b fzero Hi).
Qed.

Lemma Filter_Init_Ready (N : nat) (nc dc : list F) :
  length nc = S N -> length dc = S N -> N <= 254 -> S N <= capacity ->
  Ready N (mkFilter nc dc (repeat fzero (S N)) (repeat fzero (S N))).
Proof.
  intros Hnc Hdc HN Hcap. unfold Ready.
  cbn [numerator denominator out_list in_list].
  rewrite !repeat_length. lia.
Qed.

(** Ready is the state a returning [Filter_Init] leaves. *)
Lemma Filter_Init_leaves_Ready (N fuel : nat) (nc dc : list F)
    (f0 f : Filter_Data_t) :
  length nc = S N -> length dc = S N -> N <= 255 ->
  Filter_Init fuel nc dc (Z.of_nat N) f0 = Done (tt, f) -> Ready N f.
Proof.
  intros Hnc Hdc HN Hinit.
  destruct (@Filter_Init_returns _ _ _ _ _ _ Hnc Hdc HN Hinit)
    as (H254 & Hcap & E).
  injection E as ->. now apply Filter_Init_Ready.
Qed.

(** ** Calls on Ready filters *)

Lemma Filter_ShiftBy_keeps_Ready (N : nat) (f : Filter_Data_t) (s : F) :
  Ready N f ->
  Ready N (mkFilter (numerator f) (denominator f)
                    (map (fun y => fadd y s) (out_list f))
                    (map (fun x => fadd x s) (in_list f))).
Proof.
  unfold Ready. cbn [numerator denominator out_list in_list].
  rewrite !length_map. exact (fun H => H).
Qed.

Lemma Filter_SetTo_keeps_Ready (N : nat) (f : Filter_Data_t) (c : F) :
  Ready N f ->
  Ready N (mkFilter (numerator f) (denominator f)
                    (repeat c (S N)) (repeat c (S N))).
Proof.
  unfold Ready. cbn [numerator denominator out_list in_list].
  rewrite !repeat_length.
  intros (Hn & Hd & _ & _ & Hcap & H255). repeat split; assumption.
Qed.

(** A call on a Ready filter either runs out of fuel or returns a Ready
    filter with the same coefficients. *)
Lemma run_call_result (N fuel : nat) (c : filter_call) (f : Filter_Data_t) :
  Ready N f ->
  run_call fuel c f = Timeout \/
  exists f', run_call fuel c f = Done (tt, f') /\ Ready N f' /\
             numerator f' = numerator f /\ denominator f' = denominator f.
Proof.
  intros HR. destruct c as [v|s|c]; cbn [run_call].
  - unfold bind. rewrite (Filter_Value_Ready_run _ _ HR).
    destruct (N <? fuel); [right|now left].
    eexists. split; [reflexivity|].
    split; [now apply Filter_Value_keeps_Ready | split; reflexivity].
  - rewrite (Filter_ShiftBy_run _ _ HR).
    destruct (S N <? fuel); [right|now left].
    eexists. split; [reflexivity|].
    split; [now apply Filter_ShiftBy_keeps_Ready | split; reflexivity].
  - rewrite (Filter_SetTo_run _ _ HR).
    destruct (S N <? fuel); [right|now left].
    eexists. split; [reflexivity|].
    split; [now apply Filter_SetTo_keeps_Ready | split; reflexivity].
Qed.

Lemma run_call_fuelled (N fuel : nat) (c : filter_call) (f : Filter_Data_t) :
  Ready N f -> S N < fuel ->
  exists f', run_call fuel c f = Done (tt, f') /\ Ready N f' /\
             numerator f' = numerator f /\ denominator f' = denominator f.
Proof.
  intros HR Hfuel.
  assert ((N <? fuel) = true) as E1 by (apply Nat.ltb_lt; lia).
  assert ((S N <? fuel) = true) as E2 by (apply Nat.ltb_lt; lia).
  destruct c as [v|s|c]; cbn [run_call].
  - unfold bind. rewrite (Filter_Value_Ready_run _ _ HR), E1.
    eexists. split; [reflexivity|].
    split; [now apply Filter_Value_keeps_Ready | split; reflexivity].
  - rewrite (Filter_ShiftBy_run _ _ HR), E2.
    eexists. split; [reflexivity|].
    split; [now apply Filter_ShiftBy_keeps_Ready | split; reflexivity].
  - rewrite (Filter_SetTo_run _ _ HR), E2.
    eexists. split; [reflexivity|].
    split; [now apply Filter_SetTo_keeps_Ready | split; reflexivity].
Qed.

Lemma run_calls_fuelled (N fuel : nat) (cs : list filter_call) :
  S N < fuel ->
  forall f, Ready N f ->
    exists trace f',
      run_calls fuel cs f = Done (trace, f') /\
      Forall (fun g => Ready N g /\ numerator g = numerator f /\
                       denominator g = denominator f) trace.
Proof.
  intros Hfuel. induction cs as [|c cs IH]; intros f HR.
  - exists [f], f. split; [reflexivity|].
    constructor; [split; [exact HR | split; reflexivity] | constructor].
  - destruct (run_call_fuelled c HR Hfuel) as (f1 & E1 & HR1 & Hn1 & Hd1).
    destruct (IH f1 HR1) as (trace & f' & E & Hall).
    exists (f :: trace), f'. split.
    + cbn [run_calls]. unfold bind at 1. rewrite E1.
      unfold bind at 1. rewrite E. reflexivity.
    + constructor; [split; [exact HR | split; reflexivity]|].
      eapply Forall_impl; [|exact Hall].
      intros g (Hg & Hgn & Hgd). rewrite Hgn, Hgd.
      split; [exact Hg | split; assumption].
Qed.

Lemma run_calls_never_fault (N fuel : nat) (cs : list filter_call) :
  forall (f : Filter_Data_t) (e : fault),
    Ready N f -> run_calls fuel cs f <> Fault e.
Proof.
  induction cs as [|c cs IH]; intros f e HR; [discriminate|].
  cbn [run_calls]. unfold bind at 1.
  destruct (run_call_result fuel c HR) as [E|(f1 & E & HR1 & _)]; rewrite E;
    [discriminate|].
  unfold bind at 1.
  destruct (run_calls fuel cs f1) as [[t f2]| |] eqn:E2; try discriminate.
  now apply IH in E2.
Qed.

(** Only [Filter_Value] calls: the fuel of one such call is enough. *)
Lemma run_values_fuelled (N fuel : nat) (values : list F) :
  N < fuel ->
  forall f, Ready N f ->
    exists trace f',
      run_calls fuel (map Call_Value values) f = Done (trace, f') /\
      Forall (fun g => Ready N g /\ numerator g = numerator f /\
                       denominator g = denominator f) trace.
Proof.
  intros Hfuel. induction values as [|v vs IH]; intros f HR.
  - exists [f], f. split; [reflexivity|].
    constructor; [split; [exact HR | split; reflexivity] | constructor].
  - pose proof (Filter_Value_keeps_Ready v (difference_equation N f v) HR)
      as HR1.
    destruct (IH _ HR1) as (trace & f' & E & Hall).
    exists (f :: trace), f'. split.
    + cbn [map run_calls run_call]. unfold bind at 1. unfold bind at 1.
      rewrite (Filter_Value_Ready_run _ _ HR).
      replace (N <? fuel) with true by (symmetry; apply Nat.ltb_lt; lia).
      unfold ret at 1. unfold bind at 1. rewrite E. reflexivity.
    + constructor; [split; [exact HR | split; reflexivity]|].
      eapply Forall_impl; [|exact Hall].
      cbn [numerator denominator]. intros g Hg. exact Hg.
Qed.

Lemma run_calls_length (fuel : nat) (cs : list filter_call) :
  forall (f f' : Filter_Data_t) (trace : list Filter_Data_t),
    run_calls fuel cs f = Done (trace, f') -> length trace = S (length cs).
Proof.
  induction cs as [|c cs IH]; intros f f' trace Erun.
  - injection Erun as <- _. reflexivity.
  - cbn [run_calls] in Erun.
    apply bind_Done in Erun as (u & g1 & _ & Erun).
    apply bind_Done in Erun as (t & g2 & Erun & Eret).
    unfold ret in Eret. injection Eret as <- _.
    cbn [length]. f_equal. exact (IH _ _ _ Erun).
Qed.

(** * The claims of the specification *)

(** C1. In the Ready state of order [N], [Filter_Value] returns the
    difference equation
    ( b0*x[n] + Sum_{i=1..N} b_i*x[n-i] - Sum_{i=1..N} a_i*y[n-i] ) / a0
    evaluated on the histories stored before the call ([x[n-i]] and [y[n-i]]
    the i-th most recent stored input and output, the sums added from
    [i = 1] upwards in the arithmetic of the sample type); afterwards the
    input history has lost its oldest element and gained [value] at the
    tail, the output history has lost its oldest element and gained the
    returned output. *)
Theorem Filter_Value_difference_equation
    (N fuel : nat) (f : Filter_Data_t) (value : F) :
  Ready N f -> N < fuel ->
  Filter_Value fuel value f
  = Done (difference_equation N f value,
          mkFilter (numerator f) (denominator f)
                   (tl (out_list f) ++ [difference_equation N f value])
                   (tl (in_list f) ++ [value])).
Proof.
  intros HR Hfuel. rewrite (Filter_Value_Ready_run _ _ HR).
  now replace (N <? fuel) with true by (symmetry; apply Nat.ltb_lt; lia).
Qed.

(** C2. After [Filter_Init] with order [N] has returned, every sequence of
    [Filter_Value], [Filter_ShiftBy] and [Filter_SetTo] calls runs to its
    end, and in every state it passes through (before the first call and
    after each call) the numerator, denominator, input-history and
    output-history buffers all hold [N+1] elements. *)
Theorem buffer_lengths_invariant
    (N fuel0 fuel : nat) (nc dc : list F) (f0 f : Filter_Data_t)
    (cs : list filter_call) :
  length nc = S N -> length dc = S N -> N <= 255 ->
  Filter_Init fuel0 nc dc (Z.of_nat N) f0 = Done (tt, f) ->
  S N < fuel ->
  exists trace f',
    run_calls fuel cs f = Done (trace, f') /\
    length trace = S (length cs) /\ Forall (lengths_are N) trace.
Proof.
  intros Hnc Hdc HN Hinit Hfuel.
  destruct (@Filter_Init_returns _ _ _ _ _ _ Hnc Hdc HN Hinit) as (H254 & Hcap & E).
  injection E as ->.
  pose proof (@Filter_Init_Ready _ _ _ Hnc Hdc H254 Hcap) as HR.
  destruct (@run_calls_fuelled _ _ cs Hfuel _ HR) as (trace & f' & Erun & Hall).
  exists trace, f'. split; [exact Erun|].
  split; [exact (run_calls_length _ _ _ Erun)|].
  eapply Forall_impl; [|exact Hall].
  intros g ((Hn & Hd & Hi & Ho & _) & _). repeat split; assumption.
Qed.

(** C3. After [Filter_Init] has returned, any number of [Filter_Value]
    calls runs to its end, and in the state after each call (and before the
    first) the numerator and denominator buffers, oldest element first, are
    exactly the coefficient sequences passed to [Filter_Init]. *)
Theorem coefficients_stable
    (N fuel0 fuel : nat) (nc dc : list F) (f0 f : Filter_Data_t)
    (values : list F) :
  length nc = S N -> length dc = S N -> N <= 255 ->
  Filter_Init fuel0 nc dc (Z.of_nat N) f0 = Done (tt, f) ->
  N < fuel ->
  exists trace f',
    run_calls fuel (map Call_Value values) f = Done (trace, f') /\
    length trace = S (length values) /\
    Forall (fun g => numerator g = nc /\ denominator g = dc) trace.
Proof.
  intros Hnc Hdc HN Hinit Hfuel.
  destruct (@Filter_Init_returns _ _ _ _ _ _ Hnc Hdc HN Hinit) as (H254 & Hcap & E).
  injection E as ->.
  pose proof (@Filter_Init_Ready _ _ _ Hnc Hdc H254 Hcap) as HR.
  destruct (@run_values_fuelled _ _ values Hfuel _ HR) as (trace & f' & Erun & Hall).
  exists trace, f'. split; [exact Erun|]. split.
  - rewrite (run_calls_length _ _ _ Erun). now rewrite length_map.
  - eapply Forall_impl; [|exact Hall].
    cbn [numerator denominator]. intros g (_ & Hn & Hd). now split.
Qed.

(** C4. For coefficient arrays of length [N+1]: an order [N] below 255
    whose [N+1] coefficients fit the buffers makes [Filter_Init] return with
    the numerator and denominator buffers holding the given coefficients in
    index order 0..N and both history buffers holding exactly [N+1] zeros;
    and for every order of the parameter's type, whenever [Filter_Init]
    returns, that is the state it leaves. *)
Theorem Filter_Init_contents
    (N fuel : nat) (nc dc : list F) (f0 : Filter_Data_t) :
  length nc = S N -> length dc = S N ->
  (N <= 254 -> S N <= capacity -> S N < fuel ->
   Filter_Init fuel nc dc (Z.of_nat N) f0
   = Done (tt, mkFilter nc dc (repeat fzero (S N)) (repeat fzero (S N)))) /\
  (N <= 255 ->
   forall r, Filter_Init fuel nc dc (Z.of_nat N) f0 = Done r ->
             r = (tt, mkFilter nc dc (repeat fzero (S N))
                               (repeat fzero (S N)))).
Proof.
  intros Hnc Hdc. split.
  - intros HN Hcap Hfuel. rewrite Filter_Init_run by assumption.
    now replace (S N <? fuel) with true by (symmetry; apply Nat.ltb_lt; lia).
  - intros HN r Hr.
    now destruct (@Filter_Init_returns _ _ _ _ _ _ Hnc Hdc HN Hr) as (_ & _ & E).
Qed.

(** C5, at the largest order of the parameter's type.  With [order = 255]
    the loop test [i <= order] on the [uint8_t] counter never fails, and
    [Filter_Init] returns for no amount of fuel, whatever the coefficient
    arrays, the capacity and the state it starts from. *)
Theorem Filter_Init_order_255_never_returns
    (fuel : nat) (nc dc : list F) (f0 : Filter_Data_t)
    (r : unit * Filter_Data_t) :
  Filter_Init fuel nc dc 255 f0 <> Done r.
Proof.
  unfold Filter_Init.
  do 4 (unfold bind at 1; unfold on at 1, rb_initialize_F;
        cbn [fget fset numerator_ denominator_ out_list_ in_list_
             numerator denominator out_list in_list]).
  intros H. apply bind_Done in H as (i' & st' & Hloop & _).
  revert Hloop. apply Filter_Init_loop_255. lia.
Qed.

(** C6. On a Ready filter [Filter_ShiftBy] returns, having added
    [shift_amount] to every input-history and every output-history sample
    in place (same order, same lengths), the numerator and denominator
    buffers unchanged. *)
Theorem Filter_ShiftBy_shifts_histories
    (N fuel : nat) (f : Filter_Data_t) (shift_amount : F) :
  Ready N f -> S N < fuel ->
  exists f',
    Filter_ShiftBy fuel shift_amount f = Done (tt, f') /\
    in_list f' = map (fun x => fadd x shift_amount) (in_list f) /\
    out_list f' = map (fun y => fadd y shift_amount) (out_list f) /\
    numerator f' = numerator f /\ denominator f' = denominator f /\
    length (in_list f') = length (in_list f) /\
    length (out_list f') = length (out_list f).
Proof.
  intros HR Hfuel. eexists. rewrite (Filter_ShiftBy_run _ _ HR).
  replace (S N <? fuel) with true by (symmetry; apply Nat.ltb_lt; lia).
  split; [reflexivity|]. cbn [numerator denominator out_list in_list].
  rewrite !length_map. repeat split.
Qed.

(** C7. On a Ready filter [Filter_SetTo] returns, every input-history and
    output-history sample overwritten with [amount], coefficients and buffer
    lengths unchanged; [Filter_Last_Output] right afterwards returns
    [amount]; and calling [Filter_SetTo] twice with the same value gives the
    same result as calling it once. *)
Theorem Filter_SetTo_resets_histories
    (N fuel : nat) (f : Filter_Data_t) (amount : F) :
  Ready N f -> S N < fuel ->
  exists f',
    Filter_SetTo fuel amount f = Done (tt, f') /\
    in_list f' = map (fun _ => amount) (in_list f) /\
    out_list f' = map (fun _ => amount) (out_list f) /\
    numerator f' = numerator f /\ denominator f' = denominator f /\
    lengths_are N f' /\
    Filter_Last_Output f' = Done (amount, f') /\
    (Filter_SetTo fuel amount ;; Filter_SetTo fuel amount) f
    = Filter_SetTo fuel amount f.
Proof.
  intros HR Hfuel.
  assert ((S N <? fuel) = true) as E by (apply Nat.ltb_lt; lia).
  pose proof (Filter_SetTo_keeps_Ready amount HR) as HR'.
  eexists. rewrite (Filter_SetTo_run _ _ HR), E.
  split; [reflexivity|].
  cbn [numerator denominator out_list in_list].
  pose proof HR as (Hn & Hd & Hi & Ho & _).
  rewrite !map_const, Hi, Ho.
  do 4 (split; [reflexivity|]).
  split; [destruct HR' as (? & ? & ? & ? & _); now repeat split|].
  split.
  - change (repeat amount (S N)) with (amount :: repeat amount N) at 1 3.
    rewrite repeat_cons. apply Filter_Last_Output_run.
  - unfold bind.
    rewrite (Filter_SetTo_run _ _ HR), E, (Filter_SetTo_run _ _ HR'), E.
    reflexivity.
Qed.

(** C8. On a Ready filter [Filter_Last_Output] returns the element at
    logical index length-1 of the output history, the newest, and leaves the
    filter as it is; called right after [Filter_Value] it returns the value
    that call returned. *)
Theorem Filter_Last_Output_newest (N : nat) (f : Filter_Data_t) :
  Ready N f ->
  Filter_Last_Output f
  = Done (nth (length (out_list f) - 1) (out_list f) fzero, f) /\
  forall (fuel : nat) (value : F),
    N < fuel ->
    exists out f',
      Filter_Value fuel value f = Done (out, f') /\
      Filter_Last_Output f' = Done (out, f').
Proof.
  intros HR. split; [exact (Filter_Last_Output_Ready HR)|].
  intros fuel value Hfuel. eexists. eexists.
  rewrite (Filter_Value_Ready_run _ _ HR).
  replace (N <? fuel) with true by (symmetry; apply Nat.ltb_lt; lia).
  split; [reflexivity|]. apply Filter_Last_Output_run.
Qed.

(** C10. On a Ready filter (all four buffers at [N+1] elements, capacity at
    least [N+1]) no buffer operation issued by [Filter_Value],
    [Filter_ShiftBy] or [Filter_SetTo] fails: however far the call is run,
    alone or in a sequence of such calls, it never ends in a capacity or
    underflow fault (nor any other). *)
Theorem buffer_faults_unreachable (N : nat) (f : Filter_Data_t) :
  Ready N f ->
  forall (fuel : nat) (e : fault),
    (forall value, Filter_Value fuel value f <> Fault e) /\
    (forall shift_amount, Filter_ShiftBy fuel shift_amount f <> Fault e) /\
    (forall amount, Filter_SetTo fuel amount f <> Fault e) /\
    (forall cs, run_calls fuel cs f <> Fault e).
Proof.
  intros HR fuel e. repeat split.
  - intros v. rewrite (Filter_Value_Ready_run _ _ HR).
    destruct (N <? fuel); discriminate.
  - intros s. rewrite (Filter_ShiftBy_run _ _ HR).
    destruct (S N <? fuel); discriminate.
  - intros c. rewrite (Filter_SetTo_run _ _ HR).
    destruct (S N <? fuel); discriminate.
  - intros cs. now apply (@run_calls_never_fault N).
Qed.

(** * Further properties of the code *)

(** ** print_rb *)

Lemma print_rb_loop (len : Z) (rem : list F) :
  forall (done : list F) (o : list printed) (fuel : nat) (i : Z),
    length rem + length done <= capacity ->
    (0 <= i)%Z -> (i + Z.of_nat (length rem) = len)%Z ->
    len = Z.of_nat (length (rem ++ done)) -> (len <= 255)%Z ->
    while_loop fuel
      (fun i => n <- on print_f_ rb_length_F ;; ret (i <? n)%Z)
      print_rb_step i (mkPrint (rem ++ done) o)
    = if length rem <? fuel
      then Done (len,
                 mkPrint (done ++ rem)
                   (o ++ flat_map
                           (fun x => [Percent_f x; Text Console.comma_space])
                           rem))
      else Timeout.
Proof.
  induction rem as [|x rem IH]; intros done o fuel i Hcap Hi0 Hi Hlen H255.
  - cbn [length] in *. destruct fuel as [|fuel]; [reflexivity|].
    cbn [while_loop]. unfold bind, on, rb_length_F, ret.
    cbn [fget fset print_f_ print_f stdout].
    rewrite <- Hlen.
    replace (i <? len)%Z with false by (symmetry; apply Z.ltb_ge; lia).
    cbn [flat_map app]. rewrite !app_nil_r. replace i with len by lia.
    reflexivity.
  - cbn [length] in *. rewrite Nat2Z.inj_succ in Hi.
    destruct fuel as [|fuel]; [reflexivity|].
    cbn [while_loop]. unfold bind at 1.
    replace ((n <- on print_f_ rb_length_F ;; ret (i <? n)%Z)
               (mkPrint ((x :: rem) ++ done) o))
      with (Done (true, mkPrint ((x :: rem) ++ done) o)
            : outcome (bool * print_state)).
    2:{ unfold bind, on, rb_length_F, ret.
        cbn [fget fset print_f_ print_f stdout].
        rewrite <- Hlen.
        now replace (i <? len)%Z with true
          by (symmetry; apply Z.ltb_lt; lia). }
    unfold bind at 1.
    replace (print_rb_step i (mkPrint ((x :: rem) ++ done) o))
      with (Done (u8 (i + 1),
                  mkPrint (rem ++ done ++ [x])
                    (o ++ [Percent_f x; Text Console.comma_space]))).
    2:{ unfold print_rb_step, printf, rb_pop_front_F. symmetry.
        run_buffers. now rewrite <- app_assoc. }
    replace (u8 (i + 1)) with (i + 1)%Z
      by (unfold u8; rewrite Z.mod_small; lia).
    rewrite IH; try lia;
      try (rewrite ?length_app in *; cbn [length] in *; lia).
    change (S (length rem) <? S fuel) with (length rem <? fuel).
    destruct (length rem <? fuel); [|reflexivity].
    cbn [flat_map]. rewrite <- !app_assoc. reflexivity.
Qed.

(** X1. [print_rb] on a buffer of at most 255 elements (within its
    capacity) writes every element, oldest first, and leaves the buffer
    with the same elements in the same order: the pops and pushes make one
    full turn.  An empty buffer prints only the newlines. *)
Theorem print_rb_prints_and_restores
    (fuel : nat) (b : Ring_Buffer_Float_t) (o : list printed) :
  length b <= 255 -> length b <= capacity -> length b < fuel ->
  print_rb fuel (mkPrint b o) = Done (tt, mkPrint b (o ++ print_rb_output b)).
Proof.
  intros H255 Hcap Hfuel. unfold print_rb, print_rb_output.
  unfold bind at 1. unfold printf at 1. cbn [print_f stdout].
  unfold bind at 1.
  pose proof (@print_rb_loop (Z.of_nat (length b)) b [] (o ++ [Text Console.newline])
                fuel 0%Z) as L.
  rewrite !app_nil_r in L. cbn [app] in L.
  rewrite L; cbn [length]; try lia.
  replace (length b <? fuel) with true by (symmetry; apply Nat.ltb_lt; lia).
  unfold printf. cbn [print_f stdout]. rewrite <- !app_assoc. reflexivity.
Qed.

(** ** Histories of unequal length *)

(** X2. The loop of [Filter_SetTo] is counted by the input history alone.
    On a filter whose output history is at least as long as its input
    history ([k] elements, at most 255), the whole input history becomes
    [amount], while the output history loses its [k] oldest samples and
    gains [k] copies of [amount] at the tail: samples beyond the [k]-th are
    kept and move to the front.  With an empty input history nothing is
    changed. *)
Theorem Filter_SetTo_follows_in_list
    (fuel : nat) (f : Filter_Data_t) (o1 o2 : list F) (amount : F) :
  out_list f = o1 ++ o2 -> length o1 = length (in_list f) ->
  length (in_list f) <= 255 ->
  length (in_list f) <= capacity -> length (out_list f) <= capacity ->
  length (in_list f) < fuel ->
  Filter_SetTo fuel amount f
  = Done (tt, mkFilter (numerator f) (denominator f)
                       (o2 ++ repeat amount (length (in_list f)))
                       (repeat amount (length (in_list f)))).
Proof.
  destruct f as [nums dens ys xs].
  cbn [numerator denominator out_list in_list].
  intros -> Ho H255 Cx Cy Hfuel. rewrite length_app in Cy.
  unfold Filter_SetTo.
  unfold bind at 1, on at 1, rb_length_F.
  cbn [fget fset in_list_ in_list numerator denominator out_list].
  replace (u8 (Z.of_nat (length xs))) with (Z.of_nat (length xs))
    by (unfold u8; rewrite Z.mod_small; lia).
  unfold bind at 1.
  pose proof (@Filter_SetTo_loop amount (Z.of_nat (length xs)) xs o1 [] o2
                nums dens fuel 0%Z) as L.
  rewrite !app_nil_r in L. rewrite L; cbn [length]; try lia.
  now replace (length xs <? fuel) with true
    by (symmetry; apply Nat.ltb_lt; lia).
Qed.

Lemma Filter_ShiftBy_drain_loop_rest (rem : list F) :
  forall (orem rest tin tout nums dens tn td : list F) (fuel : nat),
    length orem = length rem ->
    length tin + length rem <= capacity ->
    length tout + length orem <= capacity ->
    while_loop fuel (fun _ : unit => Filter_ShiftBy_drain_test)
      (fun _ => Filter_ShiftBy_drain) tt
      (mkFrame (mkFilter nums dens (orem ++ rest) rem)
               (mkFilter tn td tout tin))
    = if length rem <? fuel
      then Done (tt, mkFrame (mkFilter nums dens rest [])
                             (mkFilter tn td (tout ++ orem) (tin ++ rem)))
      else Timeout.
Proof.
  induction rem as [|x rem IH];
    intros orem rest tin tout nums dens tn td fuel Ho Ci Co.
  - destruct orem; [|discriminate].
    destruct fuel as [|fuel]; [reflexivity|].
    cbn [while_loop]. unfold Filter_ShiftBy_drain_test, rb_length_F.
    run_buffers. now rewrite !app_nil_r.
  - destruct orem as [|y orem]; [discriminate|]. cbn [length] in *.
    destruct fuel as [|fuel]; [reflexivity|].
    cbn [while_loop]. unfold bind at 1.
    replace (Filter_ShiftBy_drain_test
               (mkFrame (mkFilter nums dens ((y :: orem) ++ rest) (x :: rem))
                        (mkFilter tn td tout tin)))
      with (Done (true,
                  mkFrame (mkFilter nums dens ((y :: orem) ++ rest) (x :: rem))
                          (mkFilter tn td tout tin)))
      by reflexivity.
    unfold bind at 1.
    replace (Filter_ShiftBy_drain
               (mkFrame (mkFilter nums dens ((y :: orem) ++ rest) (x :: rem))
                        (mkFilter tn td tout tin)))
      with (Done (tt, mkFrame (mkFilter nums dens (orem ++ rest) rem)
                              (mkFilter tn td (tout ++ [y]) (tin ++ [x])))).
    2:{ unfold Filter_ShiftBy_drain, rb_pop_front_F. symmetry. run_buffers. }
    rewrite IH; try lia; try (rewrite ?length_app; cbn [length]; lia).
    change (S (length rem) <? S fuel) with (length rem <? fuel).
    destruct (length rem <? fuel); [|reflexivity].
    rewrite <- !app_assoc. reflexivity.
Qed.

(** X3. Both loops of [Filter_ShiftBy] are counted by the input history
    alone.  On a filter whose output history is at least as long as its
    input history ([k] elements), every input sample is shifted, the [k]
    oldest output samples are shifted and moved behind the remaining ones,
    which stay unshifted; the coefficient buffers are untouched.  With an
    empty input history nothing is changed, whatever the output history
    holds. *)
Theorem Filter_ShiftBy_follows_in_list
    (fuel : nat) (f : Filter_Data_t) (o1 o2 : list F) (shift_amount : F) :
  out_list f = o1 ++ o2 -> length o1 = length (in_list f) ->
  length (in_list f) <= capacity -> length (out_list f) <= capacity ->
  length (in_list f) < fuel ->
  Filter_ShiftBy fuel shift_amount f
  = Done (tt, mkFilter (numerator f) (denominator f)
                       (o2 ++ map (fun y => fadd y shift_amount) o1)
                       (map (fun x => fadd x shift_amount) (in_list f))).
Proof.
  destruct f as [nums dens ys xs].
  cbn [numerator denominator out_list in_list].
  intros -> Ho Cx Cy Hfuel. rewrite length_app in Cy.
  assert ((length xs <? fuel) = true) as E by (apply Nat.ltb_lt; lia).
  unfold Filter_ShiftBy, call_with_local, Filter_ShiftBy_body.
  do 2 (unfold bind at 1; unfold on at 1 2, rb_initialize_F;
        cbn [fget fset temp_shift_ temp_shift p_filt out_list_ in_list_
             numerator denominator out_list in_list]).
  unfold bind at 1.
  rewrite Filter_ShiftBy_drain_loop_rest by (cbn [app length]; lia).
  rewrite E. unfold bind at 1.
  rewrite Filter_ShiftBy_refill_loop by (cbn [app length]; lia).
  cbn [app]. rewrite E. reflexivity.
Qed.

(** ** Before Filter_Init *)

(** X4. [Filter_Value] pops each of the four buffers before its loop: on a
    filter with any buffer empty (as before [Filter_Init]) it ends in an
    underflow fault, however much fuel it has.  On an empty output history
    [Filter_Last_Output] asks for index -1 and ends in an index fault. *)
Theorem calls_before_Filter_Init_fault
    (fuel : nat) (f : Filter_Data_t) (value : F) :
  (in_list f = [] \/ numerator f = [] \/ denominator f = [] \/
   out_list f = [] ->
   Filter_Value fuel value f = Fault UnderflowError) /\
  (out_list f = [] -> Filter_Last_Output f = Fault IndexError).
Proof.
  destruct f as [nums dens ys xs].
  cbn [numerator denominator out_list in_list]. split.
  - intros H. unfold Filter_Value, bind, on, rb_length_F, rb_pop_front_F.
    cbn [fget fset numerator_ denominator_ out_list_ in_list_
         numerator denominator out_list in_list].
    destruct xs as [|x xs]; [reflexivity|].
    destruct nums as [|b nums]; [reflexivity|].
    destruct dens as [|a dens]; [reflexivity|].
    destruct ys as [|y ys]; [reflexivity|].
    destruct H as [H|[H|[H|H]]]; discriminate H.
  - intros ->. reflexivity.
Qed.

(** ** Filter_Init and longer arrays *)

Lemma Filter_Init_loop_prefix (N : nat) (nc dc : list F) (k : nat) :
  forall (n fuel : nat) (nums dens outs ins : list F),
    S N <= length nc -> S N <= length dc -> N <= 254 ->
    n + k = S N ->
    length nums + k <= capacity -> length dens + k <= capacity ->
    length outs + k <= capacity -> length ins + k <= capacity ->
    while_loop fuel (fun i => ret (i <=? Z.of_nat N)%Z)
      (Filter_Init_step nc dc) (Z.of_nat n) (mkFilter nums dens outs ins)
    = if k <? fuel
      then Done (Z.of_nat (S N),
                 mkFilter (nums ++ firstn k (skipn n nc))
                          (dens ++ firstn k (skipn n dc))
                          (outs ++ repeat fzero k) (ins ++ repeat fzero k))
      else Timeout.
Proof.
  induction k as [|k IH];
    intros n fuel nums dens outs ins Hnc Hdc HN Hn Cn Cd Co Ci.
  - destruct fuel as [|fuel]; [reflexivity|].
    cbn [while_loop]. unfold bind, ret.
    replace (Z.of_nat n <=? Z.of_nat N)%Z with false
      by (symmetry; apply Z.leb_gt; lia).
    cbn [firstn repeat]. rewrite !app_nil_r.
    replace n with (S N) by lia. reflexivity.
  - destruct fuel as [|fuel]; [reflexivity|].
    cbn [while_loop]. unfold bind at 1. unfold ret at 1.
    replace (Z.of_nat n <=? Z.of_nat N)%Z with true
      by (symmetry; apply Z.leb_le; lia).
    unfold bind at 1.
    destruct (@nth_error_in_range nc n) as [x Hx]; [lia|].
    destruct (@nth_error_in_range dc n) as [y Hy]; [lia|].
    rewrite (@Filter_Init_step_run nc dc nums dens outs ins n x y Hx Hy)
      by lia.
    replace (u8 (Z.of_nat n + 1)) with (Z.of_nat (S n))
      by (unfold u8; rewrite Z.mod_small; lia).
    rewrite IH; try lia; try (rewrite ?length_app; cbn [length]; lia).
    change (S k <? S fuel) with (k <? fuel).
    destruct (k <? fuel); [|reflexivity].
    rewrite (@skipn_nth_error nc n x Hx), (@skipn_nth_error dc n y Hy).
    rewrite !firstn_cons. cbn [repeat]. rewrite <- !app_assoc. reflexivity.
Qed.

(** X6. [Filter_Init] reads the coefficient arrays at indices 0..order
    only: with longer arrays the filter holds their first [order+1]
    entries, whatever follows. *)
Theorem Filter_Init_reads_order_plus_one
    (N fuel : nat) (nc dc : list F) (f0 : Filter_Data_t) :
  S N <= length nc -> S N <= length dc ->
  N <= 254 -> S N <= capacity -> S N < fuel ->
  Filter_Init fuel nc dc (Z.of_nat N) f0
  = Done (tt, mkFilter (firstn (S N) nc) (firstn (S N) dc)
                       (repeat fzero (S N)) (repeat fzero (S N))).
Proof.
  intros Hnc Hdc HN Hcap Hfuel. unfold Filter_Init.
  do 4 (unfold bind at 1; unfold on at 1, rb_initialize_F;
        cbn [fget fset numerator_ denominator_ out_list_ in_list_
             numerator denominator out_list in_list]).
  unfold bind at 1.
  rewrite (@Filter_Init_loop_prefix N nc dc (S N) 0); cbn [length]; try lia.
  now replace (S N <? fuel) with true by (symmetry; apply Nat.ltb_lt; lia).
Qed.

(** ** Filtering a signal *)

Lemma skipn_slide (x0 v : F) (xs vs : list F) :
  skipn (length vs) ((xs ++ [v]) ++ vs)
  = skipn (S (length vs)) ((x0 :: xs) ++ v :: vs).
Proof. cbn [skipn app]. now rewrite <- app_assoc. Qed.

(** X7. Feeding a Ready filter a signal sample by sample returns one
    output per sample and slides both histories: afterwards the input
    history is the last [N+1] of the old input history followed by the
    samples, the output history the last [N+1] of the old output history
    followed by the outputs, the coefficients are as before and the filter
    is Ready again.  A signal of [N+1] samples replaces the histories
    whole. *)
Theorem Filter_Values_slide
    (N fuel : nat) (values : list F) :
  N < fuel ->
  forall f, Ready N f ->
    exists ys f',
      Filter_Values fuel values f = Done (ys, f') /\
      length ys = length values /\
      in_list f' = skipn (length values) (in_list f ++ values) /\
      out_list f' = skipn (length values) (out_list f ++ ys) /\
      numerator f' = numerator f /\ denominator f' = denominator f /\
      Ready N f' /\
      (length values = S N -> in_list f' = values /\ out_list f' = ys).
Proof.
  intros Hfuel.
  assert ((N <? fuel) = true) as E by (apply Nat.ltb_lt; lia).
  assert (forall f, Ready N f ->
            exists ys f',
              Filter_Values fuel values f = Done (ys, f') /\
              length ys = length values /\
              in_list f' = skipn (length values) (in_list f ++ values) /\
              out_list f' = skipn (length values) (out_list f ++ ys) /\
              numerator f' = numerator f /\ denominator f' = denominator f /\
              Ready N f') as Hmain.
  { induction values as [|v vs IH]; intros f HR.
    - exists [], f. cbn [Filter_Values length skipn].
      rewrite !app_nil_r. repeat split; try reflexivity; apply HR.
    - pose proof (Filter_Value_keeps_Ready v (difference_equation N f v) HR)
        as HR1.
      destruct (IH _ HR1) as (ys & f' & Erun & Hlen & Hin & Hout & Hn & Hd & HR').
      exists (difference_equation N f v :: ys), f'.
      cbn [numerator denominator out_list in_list] in Hin, Hout, Hn, Hd.
      destruct (Ready_shape HR)
        as (b0 & bs & a0 & as_ & y0 & ys0 & x0 & xs & Ef & _).
      split.
      + cbn [Filter_Values]. unfold bind at 1.
        rewrite (Filter_Value_Ready_run _ _ HR), E.
        unfold bind at 1. rewrite Erun. reflexivity.
      + split; [cbn [length]; now rewrite Hlen|].
        rewrite Hin, Hout, Hn, Hd. rewrite Ef.
        cbn [numerator denominator out_list in_list tl length].
        split; [apply skipn_slide|].
        split; [rewrite <- Hlen; apply skipn_slide|].
        split; [reflexivity|]. split; [reflexivity|]. exact HR'. }
  intros f HR.
  destruct (Hmain f HR) as (ys & f' & Erun & Hlen & Hin & Hout & Hn & Hd & HR').
  exists ys, f'. do 7 (split; [assumption|]).
  intros Hfull. destruct HR as (_ & _ & Hi & Ho & _). split.
  - rewrite Hin, Hfull, skipn_app, <- Hi, skipn_all, Nat.sub_diag.
    reflexivity.
  - rewrite Hout, Hfull, skipn_app, <- Ho, skipn_all, Nat.sub_diag.
    reflexivity.
Qed.

(** ** What Filter_Value does not read *)

(** X8. The histories hold [N+1] samples but [Filter_Value] uses [N] of
    each: the oldest input and the oldest output are popped and dropped
    unread, so replacing them changes neither the returned value nor the
    state left behind. *)
Theorem Filter_Value_ignores_oldest
    (N fuel : nat) (f : Filter_Data_t) (value x0' y0' : F) :
  Ready N f ->
  Filter_Value fuel value
    (mkFilter (numerator f) (denominator f)
              (y0' :: tl (out_list f)) (x0' :: tl (in_list f)))
  = Filter_Value fuel value f.
Proof.
  intros HR.
  destruct (Ready_shape HR)
    as (b0 & bs & a0 & as_ & y0 & ys & x0 & xs & -> & Hb & Ha & Hy & Hx).
  destruct HR as (_ & _ & _ & _ & Hcap & H255).
  cbn [numerator denominator out_list in_list tl].
  rewrite !Filter_Value_run by lia. reflexivity.
Qed.

(** ** How the state operations compose *)

(** X9. On a Ready filter, [Filter_SetTo amount] followed by
    [Filter_ShiftBy shift] is [Filter_SetTo (amount + shift)], for any
    amount of fuel. *)
Theorem Filter_SetTo_then_ShiftBy
    (N fuel : nat) (f : Filter_Data_t) (amount shift_amount : F) :
  Ready N f ->
  (Filter_SetTo fuel amount ;; Filter_ShiftBy fuel shift_amount) f
  = Filter_SetTo fuel (fadd amount shift_amount) f.
Proof.
  intros HR.
  pose proof (Filter_SetTo_keeps_Ready amount HR) as HR'.
  unfold bind. rewrite !(Filter_SetTo_run _ _ HR).
  destruct (S N <? fuel) eqn:E; [|reflexivity].
  rewrite (Filter_ShiftBy_run _ _ HR'), E.
  cbn [numerator denominator out_list in_list].
  now rewrite !map_repeat.
Qed.

(** X10. On a Ready filter, [Filter_SetTo] after [Filter_ShiftBy] gives
    what [Filter_SetTo] alone gives: the shift is forgotten. *)
Theorem Filter_ShiftBy_then_SetTo
    (N fuel : nat) (f : Filter_Data_t) (amount shift_amount : F) :
  Ready N f ->
  (Filter_ShiftBy fuel shift_amount ;; Filter_SetTo fuel amount) f
  = Filter_SetTo fuel amount f.
Proof.
  intros HR.
  pose proof (Filter_ShiftBy_keeps_Ready shift_amount HR) as HR'.
  unfold bind. rewrite (Filter_ShiftBy_run _ _ HR), (Filter_SetTo_run _ _ HR).
  destruct (S N <? fuel) eqn:E; [|reflexivity].
  rewrite (Filter_SetTo_run _ _ HR'), E. reflexivity.
Qed.

(** X11. On a Ready filter, [Filter_Last_Output] after [Filter_ShiftBy]
    returns the last output from before the shift, plus the shift. *)
Theorem Filter_Last_Output_after_ShiftBy
    (N fuel : nat) (f : Filter_Data_t) (shift_amount : F) :
  Ready N f -> S N < fuel ->
  exists y f',
    Filter_Last_Output f = Done (y, f) /\
    (Filter_ShiftBy fuel shift_amount ;; Filter_Last_Output) f
    = Done (fadd y shift_amount, f').
Proof.
  intros HR Hfuel.
  assert ((S N <? fuel) = true) as E by (apply Nat.ltb_lt; lia).
  destruct (Ready_shape HR)
    as (b0 & bs & a0 & as_ & y0 & ys & x0 & xs & Ef & _).
  destruct (exists_last (l := y0 :: ys)) as (ys' & y & Ey); [discriminate|].
  exists y. eexists. unfold bind.
  rewrite (Filter_ShiftBy_run _ _ HR), E. rewrite Ef.
  cbn [numerator denominator out_list in_list].
  rewrite Ey, map_app. cbn [map].
  split; apply Filter_Last_Output_run.
Qed.

(** X12. On a Ready filter two [Filter_ShiftBy] calls in a row shift every
    stored sample twice, in the arithmetic of the code: each input-history
    and output-history sample [v] becomes [(v + s) + t], in place, and the
    coefficient buffers are untouched. *)
Theorem Filter_ShiftBy_twice
    (N fuel : nat) (f : Filter_Data_t) (s t : F) :
  Ready N f -> S N < fuel ->
  (Filter_ShiftBy fuel s ;; Filter_ShiftBy fuel t) f
  = Done (tt, mkFilter (numerator f) (denominator f)
                (map (fun v => fadd (fadd v s) t) (out_list f))
                (map (fun v => fadd (fadd v s) t) (in_list f))).
Proof.
  intros HR Hfuel.
  assert ((S N <? fuel) = true) as E by (apply Nat.ltb_lt; lia).
  pose proof (Filter_ShiftBy_keeps_Ready s HR) as HR'.
  unfold bind. rewrite (Filter_ShiftBy_run _ _ HR), E.
  rewrite (Filter_ShiftBy_run _ _ HR'), E.
  cbn [numerator denominator out_list in_list].
  now rewrite !map_map.
Qed.

(** ** Shifting and then filtering *)

Lemma recent_map (g : F -> F) (h : list F) (i : nat) :
  1 <= i <= length h -> recent (map g h) i = g (recent h i).
Proof.
  intros Hi. unfold recent. rewrite <- map_rev.
  rewrite (nth_indep _ fzero (g fzero))
    by (rewrite length_map, length_rev; lia).
  apply map_nth.
Qed.

Lemma tl_map (g : F -> F) (l : list F) : tl (map g l) = map g (tl l).
Proof. destruct l; reflexivity. Qed.

(** C9, as it holds.  On a Ready filter, in the arithmetic of the code,
    [Filter_ShiftBy s] followed by [Filter_Value x] returns the difference
    equation on the shifted histories,
    ( b0*x + Sum_{i=1..N} b_i*(x[n-i] + s)
           - Sum_{i=1..N} a_i*(y[n-i] + s) ) / a0,
    and leaves the shifted histories slid by one with [x] and that output
    at their tails, the coefficients as they were; [Filter_Value (x - s)]
    on the unshifted filter returns the difference equation on the stored
    histories at the input [x - s].  The first value is not in general the
    second plus [s]. *)
Theorem shift_then_value_shifted_histories
    (N fuel : nat) (f : Filter_Data_t) (s x : F) :
  Ready N f -> S N < fuel ->
  exists out1 f1 out2 f2,
    (Filter_ShiftBy fuel s ;; Filter_Value fuel x) f = Done (out1, f1) /\
    Filter_Value fuel (fsub x s) f = Done (out2, f2) /\
    out1
    = fdiv
        (fsub
           (fsum (fadd fzero (fmul (coef (numerator f) 0) x))
                 (fun i => fmul (coef (numerator f) i)
                                (fadd (recent (in_list f) i) s)) 1 N)
           (fsum fzero
                 (fun i => fmul (coef (denominator f) i)
                                (fadd (recent (out_list f) i) s)) 1 N))
        (coef (denominator f) 0) /\
    out2 = difference_equation N f (fsub x s) /\
    in_list f1 = map (fun v => fadd v s) (tl (in_list f)) ++ [x] /\
    out_list f1 = map (fun v => fadd v s) (tl (out_list f)) ++ [out1] /\
    numerator f1 = numerator f /\ denominator f1 = denominator f.
Proof.
  intros HR Hfuel.
  assert ((N <? fuel) = true) as E1 by (apply Nat.ltb_lt; lia).
  assert ((S N <? fuel) = true) as E2 by (apply Nat.ltb_lt; lia).
  pose proof (Filter_ShiftBy_keeps_Ready s HR) as HR'.
  pose proof HR as (Hn & Hd & Hi & Ho & _).
  assert (difference_equation N
            (mkFilter (numerator f) (denominator f)
                      (map (fun y => fadd y s) (out_list f))
                      (map (fun v => fadd v s) (in_list f))) x
          = fdiv
              (fsub
                 (fsum (fadd fzero (fmul (coef (numerator f) 0) x))
                       (fun i => fmul (coef (numerator f) i)
                                      (fadd (recent (in_list f) i) s)) 1 N)
                 (fsum fzero
                       (fun i => fmul (coef (denominator f) i)
                                      (fadd (recent (out_list f) i) s)) 1 N))
              (coef (denominator f) 0)) as Eout.
  { unfold difference_equation.
    cbn [numerator denominator out_list in_list].
    rewrite (fsum_ext _
               (fun i => fmul (coef (numerator f) i)
                              (recent (map (fun v => fadd v s) (in_list f)) i))
               (fun i => fmul (coef (numerator f) i)
                              (fadd (recent (in_list f) i) s)))
      by (intros i Hr; rewrite recent_map by lia; reflexivity).
    rewrite (fsum_ext _
               (fun i => fmul (coef (denominator f) i)
                              (recent (map (fun y => fadd y s) (out_list f)) i))
               (fun i => fmul (coef (denominator f) i)
                              (fadd (recent (out_list f) i) s)))
      by (intros i Hr; rewrite recent_map by lia; reflexivity).
    reflexivity. }
  do 4 eexists. unfold bind.
  rewrite (Filter_ShiftBy_run _ _ HR), E2.
  rewrite (Filter_Value_Ready_run _ _ HR'), E1.
  rewrite (Filter_Value_Ready_run _ _ HR), E1.
  split; [reflexivity|]. split; [reflexivity|].
  split; [exact Eout|]. split; [reflexivity|].
  cbn [numerator denominator out_list in_list].
  rewrite !tl_map, Eout. repeat split.
Qed.


End Filter.

(** * Instances *)

(** The engine on IEEE binary32 samples. *)
Notation "'f32'" := Binary32.of_Z (only parsing).
Notation "'Filter_Init_f32'" := (@Filter_Init Binary32.float Binary32.zero)
  (only parsing).
Notation "'Filter_Value_f32'" :=
  (@Filter_Value Binary32.float Binary32.zero Binary32.add Binary32.sub
     Binary32.mul Binary32.div) (only parsing).
Notation "'Filter_ShiftBy_f32'" :=
  (@Filter_ShiftBy Binary32.float Binary32.add) (only parsing).
Notation "'Filter_SetTo_f32'" := (@Filter_SetTo Binary32.float)
  (only parsing).
Notation "'run_calls_f32'" :=
  (@run_calls Binary32.float Binary32.zero Binary32.add Binary32.sub
     Binary32.mul Binary32.div) (only parsing).

(** The filter of the comment above [Filter_Init]: order 4, numerator
    { 5 0 0 0 0 }, denominator { 1 1 1 1 1 }, with some history. *)
Notation "'moving_average'" :=
  (mkFilter [f32 5; f32 0; f32 0; f32 0; f32 0]
            [f32 1; f32 1; f32 1; f32 1; f32 1]
            [f32 0; f32 5; f32 0; f32 10; f32 (-5)]
            [f32 1; f32 1; f32 2; f32 3; f32 1]) (only parsing).

(** The same coefficients as [Filter_Init] leaves them, histories zero. *)
Notation "'moving_average_0'" :=
  (mkFilter [f32 5; f32 0; f32 0; f32 0; f32 0]
            [f32 1; f32 1; f32 1; f32 1; f32 1]
            [f32 0; f32 0; f32 0; f32 0; f32 0]
            [f32 0; f32 0; f32 0; f32 0; f32 0]) (only parsing).

Lemma moving_average_Ready : Ready 5 4 moving_average.
Proof.
  repeat split; cbn [length numerator denominator in_list out_list]; lia.
Defined.

Lemma Filter_Value_difference_equation_witness :
  Ready 5 4 moving_average /\ 4 < 8 /\
  Filter_Value_f32 5 8 (f32 2) moving_average
  = Done (f32 0,
          mkFilter [f32 5; f32 0; f32 0; f32 0; f32 0]
                   [f32 1; f32 1; f32 1; f32 1; f32 1]
                   [f32 5; f32 0; f32 10; f32 (-5); f32 0]
                   [f32 1; f32 2; f32 3; f32 1; f32 2]).
Proof.
  split; [exact moving_average_Ready|]. split; [lia|].
  exact (@Filter_Value_difference_equation Binary32.float Binary32.zero
           Binary32.add Binary32.sub Binary32.mul Binary32.div 5 4 8
           moving_average (f32 2) moving_average_Ready ltac:(lia)).
Defined.

Lemma buffer_lengths_invariant_witness :
  Filter_Init_f32 5 8 [f32 5; f32 0; f32 0; f32 0; f32 0]
    [f32 1; f32 1; f32 1; f32 1; f32 1] 4 (mkFilter [] [] [] [])
  = Done (tt, moving_average_0) /\
  exists trace f',
    run_calls_f32 5 8
      [Call_Value (f32 1); Call_ShiftBy (f32 2); Call_Value (f32 3);
       Call_SetTo (f32 7); Call_Value (f32 1)] moving_average_0
    = Done (trace, f') /\
    length trace = 6 /\ Forall (lengths_are 4) trace.
Proof.
  split; [reflexivity|].
  exact (@buffer_lengths_invariant Binary32.float Binary32.zero Binary32.add
           Binary32.sub Binary32.mul Binary32.div 5 4 8 8
           [f32 5; f32 0; f32 0; f32 0; f32 0]
           [f32 1; f32 1; f32 1; f32 1; f32 1]
           (mkFilter [] [] [] []) moving_average_0
           [Call_Value (f32 1); Call_ShiftBy (f32 2); Call_Value (f32 3);
            Call_SetTo (f32 7); Call_Value (f32 1)]
           eq_refl eq_refl ltac:(lia) eq_refl ltac:(lia)).
Defined.

Lemma coefficients_stable_witness :
  Filter_Init_f32 5 8 [f32 5; f32 0; f32 0; f32 0; f32 0]
    [f32 1; f32 1; f32 1; f32 1; f32 1] 4 (mkFilter [] [] [] [])
  = Done (tt, moving_average_0) /\
  exists trace f',
    run_calls_f32 5 5
      (map (@Call_Value Binary32.float) [f32 1; f32 1; f32 1; f32 1; f32 1])
      moving_average_0
    = Done (trace, f') /\
    length trace = 6 /\
    Forall (fun g => numerator g = [f32 5; f32 0; f32 0; f32 0; f32 0] /\
                     denominator g = [f32 1; f32 1; f32 1; f32 1; f32 1])
           trace.
Proof.
  split; [reflexivity|].
  exact (@coefficients_stable Binary32.float Binary32.zero Binary32.add
           Binary32.sub Binary32.mul Binary32.div 5 4 8 5
           [f32 5; f32 0; f32 0; f32 0; f32 0]
           [f32 1; f32 1; f32 1; f32 1; f32 1]
           (mkFilter [] [] [] []) moving_average_0
           [f32 1; f32 1; f32 1; f32 1; f32 1]
           eq_refl eq_refl ltac:(lia) eq_refl ltac:(lia)).
Defined.

Lemma Filter_Init_contents_witness :
  Filter_Init_f32 5 8 [f32 5; f32 0; f32 0; f32 0; f32 0]
    [f32 1; f32 1; f32 1; f32 1; f32 1] 4 moving_average
  = Done (tt, moving_average_0).
Proof.
  apply (@Filter_Init_contents Binary32.float Binary32.zero 5 4 8
           [f32 5; f32 0; f32 0; f32 0; f32 0]
           [f32 1; f32 1; f32 1; f32 1; f32 1] moving_average
           eq_refl eq_refl); lia.
Defined.

Lemma Filter_ShiftBy_shifts_histories_witness :
  exists f',
    Filter_ShiftBy_f32 5 8 (f32 100) moving_average = Done (tt, f') /\
    in_list f' = [f32 101; f32 101; f32 102; f32 103; f32 101] /\
    out_list f' = [f32 100; f32 105; f32 100; f32 110; f32 95] /\
    numerator f' = [f32 5; f32 0; f32 0; f32 0; f32 0] /\
    denominator f' = [f32 1; f32 1; f32 1; f32 1; f32 1] /\
    length (in_list f') = 5 /\ length (out_list f') = 5.
Proof.
  exact (@Filter_ShiftBy_shifts_histories Binary32.float Binary32.add 5 4 8
           moving_average (f32 100) moving_average_Ready ltac:(lia)).
Defined.

Lemma Filter_SetTo_resets_histories_witness :
  exists f',
    Filter_SetTo_f32 5 8 (f32 7) moving_average = Done (tt, f') /\
    in_list f' = [f32 7; f32 7; f32 7; f32 7; f32 7] /\
    out_list f' = [f32 7; f32 7; f32 7; f32 7; f32 7] /\
    numerator f' = [f32 5; f32 0; f32 0; f32 0; f32 0] /\
    denominator f' = [f32 1; f32 1; f32 1; f32 1; f32 1] /\
    lengths_are 4 f' /\
    Filter_Last_Output f' = Done (f32 7, f') /\
    (Filter_SetTo_f32 5 8 (f32 7) ;; Filter_SetTo_f32 5 8 (f32 7))
      moving_average
    = Filter_SetTo_f32 5 8 (f32 7) moving_average.
Proof.
  exact (@Filter_SetTo_resets_histories Binary32.float 5 4 8
           moving_average (f32 7) moving_average_Ready ltac:(lia)).
Defined.

Lemma Filter_Last_Output_newest_witness :
  Filter_Last_Output moving_average = Done (f32 (-5), moving_average) /\
  exists out f',
    Filter_Value_f32 5 8 (f32 2) moving_average = Done (out, f') /\
    Filter_Last_Output f' = Done (out, f').
Proof.
  destruct (@Filter_Last_Output_newest Binary32.float Binary32.zero
              Binary32.add Binary32.sub Binary32.mul Binary32.div 5 4
              moving_average moving_average_Ready) as [Hlast Hvalue].
  split; [exact Hlast|]. apply Hvalue. lia.
Defined.

Lemma buffer_faults_unreachable_witness :
  Ready 5 4 moving_average /\
  (forall value,
      Filter_Value_f32 5 3 value moving_average <> Fault UnderflowError) /\
  (forall shift_amount,
      Filter_ShiftBy_f32 5 3 shift_amount moving_average
      <> Fault UnderflowError) /\
  (forall amount,
      Filter_SetTo_f32 5 3 amount moving_average <> Fault UnderflowError) /\
  (forall cs, run_calls_f32 5 3 cs moving_average <> Fault UnderflowError).
Proof.
  split; [exact moving_average_Ready|].
  exact (@buffer_faults_unreachable Binary32.float Binary32.zero Binary32.add
           Binary32.sub Binary32.mul Binary32.div 5 4 moving_average
           moving_average_Ready 3 UnderflowError).
Defined.

(** The first outputs of that filter on the constant input 1, from zero
    history: y[n] = 5*x[n] - (y[n-1] + y[n-2] + y[n-3] + y[n-4]) gives
    5, 0, 0, 0, 0, 5. *)
Example moving_average_first_outputs :
  exists trace,
    run_calls_f32 5 5
      (map (@Call_Value Binary32.float)
           [f32 1; f32 1; f32 1; f32 1; f32 1; f32 1])
      moving_average_0
    = Done (trace,
            mkFilter [f32 5; f32 0; f32 0; f32 0; f32 0]
                     [f32 1; f32 1; f32 1; f32 1; f32 1]
                     [f32 0; f32 0; f32 0; f32 0; f32 5]
                     [f32 1; f32 1; f32 1; f32 1; f32 1]) /\
    map (fun g => last (out_list g) Binary32.zero) trace
    = [f32 0; f32 5; f32 0; f32 0; f32 0; f32 0; f32 5].
Proof. eexists. split; vm_compute; reflexivity. Qed.

(** The identity filter returns its input. *)
Example identity_filter :
  Filter_Value_f32 1 1 (f32 42) (mkFilter [f32 1] [f32 1] [f32 0] [f32 0])
  = Done (f32 42, mkFilter [f32 1] [f32 1] [f32 42] [f32 42]).
Proof. vm_compute. reflexivity. Qed.

(** ** Order 255 *)

(** With room for 256 elements the 256 coefficients are all loaded, the
    counter wraps to 0 and the next pass finds the buffers full. *)
Example Filter_Init_order_255_fills_the_buffers :
  Filter_Init_f32 256 1000 (repeat (f32 1) 256) (repeat (f32 1) 256) 255
    (mkFilter [] [] [] [])
  = Fault CapacityError.
Proof. vm_compute. reflexivity. Qed.

(** With room to spare the loop goes on until the fuel is gone. *)
Example Filter_Init_order_255_keeps_going :
  Filter_Init_f32 4096 1000 (repeat (f32 1) 256) (repeat (f32 1) 256) 255
    (mkFilter [] [] [] [])
  = Timeout.
Proof. vm_compute. reflexivity. Qed.

(** Order 254 is the largest that returns. *)
Example Filter_Init_order_254_returns :
  Filter_Init_f32 255 257 (repeat (f32 1) 255) (repeat (f32 1) 255) 254
    (mkFilter [] [] [] [])
  = Done (tt, mkFilter (repeat (f32 1) 255) (repeat (f32 1) 255)
                       (repeat Binary32.zero 255) (repeat Binary32.zero 255)).
Proof. vm_compute. reflexivity. Qed.

(** ** Shifting *)

(** C9 fails as stated.  The two-tap sum (numerator { 1 1 }, denominator
    { 1 0 }, so only [a0] is nonzero) after one [Filter_Value] call: shifting
    by 1 and filtering 1 returns 5, filtering 1 - 1 on the unshifted filter
    and adding 1 gives 4. *)
Lemma shift_then_value_counterexample :
  exists f out1 f1 out2 f2,
    (Filter_Init_f32 2 8 [f32 1; f32 1] [f32 1; f32 0] 1 ;;
     Filter_Value_f32 2 8 (f32 3)) (mkFilter [] [] [] [])
    = Done (f32 3, f) /\
    (Filter_ShiftBy_f32 2 8 (f32 1) ;; Filter_Value_f32 2 8 (f32 1)) f
    = Done (out1, f1) /\
    Filter_Value_f32 2 8 (Binary32.sub (f32 1) (f32 1)) f = Done (out2, f2) /\
    out1 = f32 5 /\ Binary32.add out2 (f32 1) = f32 4 /\
    out1 <> Binary32.add out2 (f32 1).
Proof.
  do 5 eexists.
  split; [vm_compute; reflexivity|].
  split; [vm_compute; reflexivity|].
  split; [vm_compute; reflexivity|].
  split; [vm_compute; reflexivity|].
  split; [vm_compute; reflexivity|].
  vm_compute. discriminate.
Qed.

(** Rounding alone breaks it too: the identity filter (order 0, numerator
    { 1 }, denominator { 1 }, unit gain) with shift 2^30 and input 1. *)
Example shift_then_value_rounding :
  exists out1 f1 out2 f2,
    (Filter_ShiftBy_f32 1 8 (f32 (2 ^ 30)) ;; Filter_Value_f32 1 8 (f32 1))
      (mkFilter [f32 1] [f32 1] [f32 0] [f32 0])
    = Done (out1, f1) /\
    Filter_Value_f32 1 8 (Binary32.sub (f32 1) (f32 (2 ^ 30)))
      (mkFilter [f32 1] [f32 1] [f32 0] [f32 0])
    = Done (out2, f2) /\
    out1 = f32 1 /\ Binary32.add out2 (f32 (2 ^ 30)) = f32 0.
Proof.
  do 4 eexists.
  split; [vm_compute; reflexivity|].
  split; [vm_compute; reflexivity|].
  split; vm_compute; reflexivity.
Qed.

(** The two-tap sum of the counterexample, after its first call. *)
Notation "'two_tap_sum'" :=
  (mkFilter [f32 1; f32 1] [f32 1; f32 0] [f32 0; f32 3] [f32 0; f32 3])
  (only parsing).

Lemma two_tap_sum_Ready : Ready 2 1 two_tap_sum.
Proof.
  repeat split; cbn [length numerator denominator in_list out_list]; lia.
Defined.

Lemma shift_then_value_shifted_histories_witness :
  Ready 2 1 two_tap_sum /\
  exists out1 f1 out2 f2,
    (Filter_ShiftBy_f32 2 8 (f32 1) ;; Filter_Value_f32 2 8 (f32 1))
      two_tap_sum
    = Done (out1, f1) /\
    Filter_Value_f32 2 8 (Binary32.sub (f32 1) (f32 1)) two_tap_sum
    = Done (out2, f2) /\
    out1 = f32 5 /\ out2 = f32 3 /\
    in_list f1 = [f32 4; f32 1] /\ out_list f1 = [f32 4; f32 5] /\
    numerator f1 = [f32 1; f32 1] /\ denominator f1 = [f32 1; f32 0].
Proof.
  split; [exact two_tap_sum_Ready|].
  destruct (@shift_then_value_shifted_histories Binary32.float Binary32.zero
              Binary32.add Binary32.sub Binary32.mul Binary32.div 2 1 8
              two_tap_sum (f32 1) (f32 1) two_tap_sum_Ready ltac:(lia))
    as (out1 & f1 & out2 & f2 & E1 & E2 & H1 & H2 & Hin & Hout & Hn & Hd).
  exists out1, f1, out2, f2.
  split; [exact E1|]. split; [exact E2|].
  split; [rewrite H1; vm_compute; reflexivity|].
  split; [rewrite H2; vm_compute; reflexivity|].
  split; [rewrite Hin; vm_compute; reflexivity|].
  split; [rewrite Hout, H1; vm_compute; reflexivity|].
  split; [exact Hn | exact Hd].
Defined.

(** * Instances of the further properties *)

Lemma print_rb_prints_and_restores_witness :
  print_rb 3 4 (mkPrint [f32 1; f32 2; f32 3] [])
  = Done (tt,
          mkPrint [f32 1; f32 2; f32 3]
            [Text Binary32.float Console.newline;
             Percent_f (f32 1); Text Binary32.float Console.comma_space;
             Percent_f (f32 2); Text Binary32.float Console.comma_space;
             Percent_f (f32 3); Text Binary32.float Console.comma_space;
             Text Binary32.float Console.two_newlines]).
Proof.
  exact (@print_rb_prints_and_restores Binary32.float 3 4
           [f32 1; f32 2; f32 3] []
           ltac:(cbn [length]; lia) ltac:(cbn [length]; lia)
           ltac:(cbn [length]; lia)).
Defined.

(** A filter whose output history is one sample longer than its input
    history. *)
Notation "'lopsided'" :=
  (mkFilter [f32 5; f32 0; f32 0] [f32 1; f32 1; f32 1]
            [f32 10; f32 20; f32 30] [f32 1; f32 2]) (only parsing).

Lemma Filter_SetTo_follows_in_list_witness :
  Filter_SetTo_f32 5 4 (f32 7) lopsided
  = Done (tt, mkFilter [f32 5; f32 0; f32 0] [f32 1; f32 1; f32 1]
                       [f32 30; f32 7; f32 7] [f32 7; f32 7]).
Proof.
  exact (@Filter_SetTo_follows_in_list Binary32.float 5 4 lopsided
           [f32 10; f32 20] [f32 30] (f32 7) eq_refl eq_refl
           ltac:(cbn [length in_list]; lia) ltac:(cbn [length in_list]; lia)
           ltac:(cbn [length out_list]; lia)
           ltac:(cbn [length in_list]; lia)).
Defined.

Lemma Filter_ShiftBy_follows_in_list_witness :
  Filter_ShiftBy_f32 5 4 (f32 100) lopsided
  = Done (tt, mkFilter [f32 5; f32 0; f32 0] [f32 1; f32 1; f32 1]
                       [f32 30; f32 110; f32 120] [f32 101; f32 102]).
Proof.
  exact (@Filter_ShiftBy_follows_in_list Binary32.float Binary32.add 5 4
           lopsided [f32 10; f32 20] [f32 30] (f32 100) eq_refl eq_refl
           ltac:(cbn [length in_list]; lia)
           ltac:(cbn [length out_list]; lia)
           ltac:(cbn [length in_list]; lia)).
Defined.

Lemma calls_before_Filter_Init_fault_witness :
  Filter_Value_f32 5 8 (f32 1) (mkFilter [] [] [] [])
  = Fault UnderflowError /\
  Filter_Last_Output (mkFilter (F := Binary32.float) [] [] [] [])
  = Fault IndexError.
Proof.
  destruct (@calls_before_Filter_Init_fault Binary32.float Binary32.zero
              Binary32.add Binary32.sub Binary32.mul Binary32.div 5 8
              (mkFilter [] [] [] []) (f32 1)) as [Hvalue Hlast].
  split; [exact (Hvalue (or_introl eq_refl)) | exact (Hlast eq_refl)].
Defined.

Lemma Filter_Init_reads_order_plus_one_witness :
  Filter_Init_f32 5 4 [f32 1; f32 2; f32 3; f32 4] [f32 5; f32 6; f32 7] 1
    (mkFilter [] [] [] [])
  = Done (tt, mkFilter [f32 1; f32 2] [f32 5; f32 6]
                       [Binary32.zero; Binary32.zero]
                       [Binary32.zero; Binary32.zero]).
Proof.
  exact (@Filter_Init_reads_order_plus_one Binary32.float Binary32.zero 5 1 4
           [f32 1; f32 2; f32 3; f32 4] [f32 5; f32 6; f32 7]
           (mkFilter [] [] [] [])
           ltac:(cbn [length]; lia) ltac:(cbn [length]; lia)
           ltac:(lia) ltac:(lia) ltac:(lia)).
Defined.

Lemma Filter_Values_slide_witness :
  exists ys f',
    Filter_Values Binary32.zero Binary32.add Binary32.sub Binary32.mul
      Binary32.div 5 5 [f32 1; f32 2; f32 3; f32 4; f32 5] moving_average
    = Done (ys, f') /\
    length ys = 5 /\
    in_list f' = [f32 1; f32 2; f32 3; f32 4; f32 5] /\
    out_list f' = ys.
Proof.
  destruct (@Filter_Values_slide Binary32.float Binary32.zero Binary32.add
              Binary32.sub Binary32.mul Binary32.div 5 4 5
              [f32 1; f32 2; f32 3; f32 4; f32 5] ltac:(lia)
              moving_average moving_average_Ready)
    as (ys & f' & Erun & Hlen & _ & _ & _ & _ & _ & Hfull).
  exists ys, f'. destruct (Hfull eq_refl) as [Hin Hout].
  repeat split; assumption.
Defined.

Lemma Filter_Value_ignores_oldest_witness :
  Filter_Value_f32 5 8 (f32 2)
    (mkFilter [f32 5; f32 0; f32 0; f32 0; f32 0]
              [f32 1; f32 1; f32 1; f32 1; f32 1]
              [f32 1000; f32 5; f32 0; f32 10; f32 (-5)]
              [f32 (-1000); f32 1; f32 2; f32 3; f32 1])
  = Filter_Value_f32 5 8 (f32 2) moving_average.
Proof.
  exact (@Filter_Value_ignores_oldest Binary32.float Binary32.zero
           Binary32.add Binary32.sub Binary32.mul Binary32.div 5 4 8
           moving_average (f32 2) (f32 (-1000)) (f32 1000)
           moving_average_Ready).
Defined.

Lemma Filter_SetTo_then_ShiftBy_witness :
  (Filter_SetTo_f32 5 8 (f32 7) ;; Filter_ShiftBy_f32 5 8 (f32 100))
    moving_average
  = Filter_SetTo_f32 5 8 (Binary32.add (f32 7) (f32 100)) moving_average.
Proof.
  exact (@Filter_SetTo_then_ShiftBy Binary32.float Binary32.add 5 4 8
           moving_average (f32 7) (f32 100) moving_average_Ready).
Defined.

Lemma Filter_ShiftBy_then_SetTo_witness :
  (Filter_ShiftBy_f32 5 8 (f32 100) ;; Filter_SetTo_f32 5 8 (f32 7))
    moving_average
  = Filter_SetTo_f32 5 8 (f32 7) moving_average.
Proof.
  exact (@Filter_ShiftBy_then_SetTo Binary32.float Binary32.add 5 4 8
           moving_average (f32 7) (f32 100) moving_average_Ready).
Defined.

Lemma Filter_Last_Output_after_ShiftBy_witness :
  exists y f',
    Filter_Last_Output moving_average = Done (y, moving_average) /\
    (Filter_ShiftBy_f32 5 8 (f32 100) ;; @Filter_Last_Output Binary32.float)
      moving_average
    = Done (Binary32.add y (f32 100), f').
Proof.
  exact (@Filter_Last_Output_after_ShiftBy Binary32.float Binary32.add 5 4 8
           moving_average (f32 100) moving_average_Ready ltac:(lia)).
Defined.

Lemma Filter_ShiftBy_twice_witness :
  (Filter_ShiftBy_f32 5 8 (f32 100) ;; Filter_ShiftBy_f32 5 8 (f32 (-30)))
    moving_average
  = Done (tt,
          mkFilter [f32 5; f32 0; f32 0; f32 0; f32 0]
                   [f32 1; f32 1; f32 1; f32 1; f32 1]
                   [f32 70; f32 75; f32 70; f32 80; f32 65]
                   [f32 71; f32 71; f32 72; f32 73; f32 71]).
Proof.
  exact (@Filter_ShiftBy_twice Binary32.float Binary32.add 5 4 8
           moving_average (f32 100) (f32 (-30)) moving_average_Ready
           ltac:(lia)).
Defined.

(** The two shifts are rounded one after the other: shifting the sample 1
    by 2^30 and then by -2^30 leaves 0, where one shift by their sum
    leaves 1. *)
Example Filter_ShiftBy_twice_rounds_twice :
  (Filter_ShiftBy_f32 1 8 (f32 (2 ^ 30)) ;;
   Filter_ShiftBy_f32 1 8 (f32 (- 2 ^ 30)))
    (mkFilter [f32 1] [f32 1] [f32 1] [f32 1])
  = Done (tt, mkFilter [f32 1] [f32 1] [f32 0] [f32 0]) /\
  Filter_ShiftBy_f32 1 8 (Binary32.add (f32 (2 ^ 30)) (f32 (- 2 ^ 30)))
    (mkFilter [f32 1] [f32 1] [f32 1] [f32 1])
  = Done (tt, mkFilter [f32 1] [f32 1] [f32 1] [f32 1]).
Proof. split; vm_compute; reflexivity. Qed.
